(** * kairat-notify: ticket-status scraper and Telegram notifier

    A shallow embedding of the TypeScript sources

    - [src/parser.ts]   : [parseButtons], [findMatchByOpponent],
                          [parseButtonsWithRetry];
    - [src/notifier.ts] : [sendNotification], [sendStatusChange],
                          [sendError], [sendManualStatus];
    - [src/types.ts]    : [ButtonStatus], [ParseResult];
    - [src/index.ts]    : [checkAndNotify], the [/status] and [/help]
                          handlers, the module variables [previousStatus]
                          and [isChecking];

    followed by the properties of the scrape-and-notify loop.

    Modelling conventions.
    - A JavaScript string is a [string] holding its UTF-8 bytes; [===] on
      strings is equality of those bytes.
    - An [async] function is a computation in the monad [M]: it threads
      the module variables and the cursors of the environment, returns
      either a value or the thrown value, and emits the list of the
      external calls it made (HTTP GET, timer, Telegram [sendMessage]).
    - The outside world is an [Env]: the answer of the [n]-th HTTP
      request, the outcome of the [n]-th [sendMessage], the [n]-th
      reading of the clock, and the URL constructor of the platform.
    - Each handler runs from its first statement to its last without
      another handler in between; a handler that finds a check cycle
      in flight is a run that starts with [isChecking = true].
    - An event [EvSend] records a call of [bot.sendMessage], whether
      the call resolves or rejects.
    - Console output is not part of the model. *)

From Stdlib Require Import String Ascii List ZArith Bool Arith Lia.
From Stdlib Require Import DecimalString.
Import ListNotations.

Local Open Scope list_scope.
Local Open Scope string_scope.

(* ================================================================== *)
(** ** JavaScript primitives used by the sources *)
(* ================================================================== *)

Module Js.

(** What a [throw] carries.  [axios.isAxiosError] holds of [AxiosError]
    only; [instanceof Error] holds of [JsError] and [AxiosError]. *)
Inductive Thrown : Type :=
| JsError (message : string)
| AxiosError (message : string) (status : option Z)
| NotAnError.

Inductive Result (A : Type) : Type :=
| Ok (a : A)
| Throw (e : Thrown).
Arguments Ok {A} a.
Arguments Throw {A} e.

Definition nl : string := String "010" EmptyString.
Definition dq : string := String "034" EmptyString.

(** [Number.prototype.toString] on an integer below 10^21 in magnitude,
    as chat identifiers and HTTP status codes are. *)
Definition toString (n : Z) : string :=
  NilZero.string_of_int (Z.to_int n).

(** Truthiness of a value of type [string | undefined]. *)
Definition truthy (v : option string) : bool :=
  match v with
  | Some s => negb (s =? "")
  | None => false
  end.

(** *** [String.prototype.trim]

    White space and line terminators of ECMAScript, as UTF-8:
    U+0009..U+000D, U+0020; U+00A0 (C2 A0); U+1680 (E1 9A 80);
    U+2000..U+200A, U+2028, U+2029, U+202F (E2 80 xx); U+205F
    (E2 81 9F); U+3000 (E3 80 80); U+FEFF (EF BB BF). *)
Definition ws1 (c : ascii) : bool :=
  let n := N_of_ascii c in
  ((9 <=? n) && (n <=? 13) || (n =? 32))%N.

Definition ws2 (c1 c2 : ascii) : bool :=
  ((N_of_ascii c1 =? 194) && (N_of_ascii c2 =? 160))%N.

Definition ws3 (c1 c2 c3 : ascii) : bool :=
  let a := N_of_ascii c1 in
  let b := N_of_ascii c2 in
  let c := N_of_ascii c3 in
  ((a =? 225) && (b =? 154) && (c =? 128)
   || (a =? 226) && (b =? 128)
      && ((128 <=? c) && (c <=? 138) || (c =? 168) || (c =? 169) || (c =? 175))
   || (a =? 226) && (b =? 129) && (c =? 159)
   || (a =? 227) && (b =? 128) && (c =? 128)
   || (a =? 239) && (b =? 187) && (c =? 191))%N.

(** Drops the white space at the head of a list of bytes; [fwd] tells
    whether the bytes come in reading order or reversed. *)
Fixpoint dropSpace (fwd : bool) (s : list ascii) : list ascii :=
  match s with
  | [] => []
  | c1 :: r1 =>
    if ws1 c1 then dropSpace fwd r1
    else
      match r1 with
      | [] => s
      | c2 :: r2 =>
        if (if fwd then ws2 c1 c2 else ws2 c2 c1) then dropSpace fwd r2
        else
          match r2 with
          | [] => s
          | c3 :: r3 =>
            if (if fwd then ws3 c1 c2 c3 else ws3 c3 c2 c1)
            then dropSpace fwd r3
            else s
          end
      end
  end.

Definition trim (s : string) : string :=
  string_of_list_ascii
    (rev (dropSpace false (rev (dropSpace true (list_ascii_of_string s))))).

End Js.

Import Js.

(* ================================================================== *)
(** ** The outside world and the monad of asynchronous functions *)
(* ================================================================== *)

(** [src/types.ts] *)
Record ButtonStatus : Type := mkButtonStatus {
  isEnabled : bool;
  href : string
}.

Record ParseResult : Type := mkParseResult {
  aktobe : ButtonStatus;
  realMadrid : ButtonStatus
}.

(** *** The page, as the queries of [parser.ts] see it *)

(** An element of a cheerio selection: its classes and attributes. *)
Record Element : Type := mkElement {
  classNames : list string;
  attribs : list (string * string)
}.

Definition Selection : Type := list Element.

(** [sel.hasClass(name)]: some element of the selection has the class. *)
Definition hasClass (sel : Selection) (name : string) : bool :=
  existsb (fun el => existsb (String.eqb name) (classNames el)) sel.

Fixpoint getAttribute (name : string) (l : list (string * string))
  : option string :=
  match l with
  | [] => None
  | (k, v) :: l' => if k =? name then Some v else getAttribute name l'
  end.

(** [sel.attr(name)]: the attribute of the first element, or undefined. *)
Definition attr (sel : Selection) (name : string) : option string :=
  match sel with
  | [] => None
  | el :: _ => getAttribute name (attribs el)
  end.

(** One element of [$(MATCH_BLOCK_SELECTOR)]:
    [teamNames] holds [.text()] of each element of
    [matchBlock.find(TEAM_NAME_SELECTOR)], in document order;
    [ticketButtons] is [matchBlock.find(TICKET_BUTTON_SELECTOR)]. *)
Record MatchBlock : Type := mkMatchBlock {
  teamNames : list string;
  ticketButtons : Selection
}.

(** [$(MATCH_BLOCK_SELECTOR)] of the loaded response. *)
Definition Page : Type := list MatchBlock.

(** *** External calls *)

Inductive Event : Type :=
| EvGet (url : string)
| EvSleep (ms : Z)
| EvSend (chatId : string) (text : string).

Record Env : Type := mkEnv {
  (** [process.env.CHAT_ID] *)
  CHAT_ID : string;
  (** [new URL(input, base).href]; [None] when the constructor throws *)
  newURL : string -> string -> option string;
  (** outcome of the [n]-th [axios.get], parsed by [cheerio.load] *)
  axiosGet : nat -> Result Page;
  (** outcome of the [n]-th [bot.sendMessage]; [None] when it resolves *)
  botSendMessage : nat -> option Thrown;
  (** value of the [n]-th [getFormattedTime()] *)
  clock : nat -> string
}.

(** Module variables of [index.ts] and the cursors into the environment. *)
Record State : Type := mkState {
  previousStatus : option ParseResult;
  isChecking : bool;
  requests : nat;
  messages : nat;
  clockReads : nat
}.

Definition set_previousStatus (v : option ParseResult) (s : State) : State :=
  mkState v (isChecking s) (requests s) (messages s) (clockReads s).

Definition set_isChecking (v : bool) (s : State) : State :=
  mkState (previousStatus s) v (requests s) (messages s) (clockReads s).

Definition nextRequest (s : State) : State :=
  mkState (previousStatus s) (isChecking s) (S (requests s))
          (messages s) (clockReads s).

Definition nextMessage (s : State) : State :=
  mkState (previousStatus s) (isChecking s) (requests s)
          (S (messages s)) (clockReads s).

Definition nextClock (s : State) : State :=
  mkState (previousStatus s) (isChecking s) (requests s)
          (messages s) (S (clockReads s)).

Definition M (A : Type) : Type := State -> Result A * State * list Event.

Definition ret {A : Type} (a : A) : M A := fun s => (Ok a, s, []).

Definition throw {A : Type} (e : Thrown) : M A := fun s => (Throw e, s, []).

Definition bind {A B : Type} (m : M A) (k : A -> M B) : M B :=
  fun s =>
    match m s with
    | (Ok a, s1, t1) => let '(r, s2, t2) := k a s1 in (r, s2, (t1 ++ t2)%list)
    | (Throw e, s1, t1) => (Throw e, s1, t1)
    end.

(** [try { m } catch (error) { h error }] *)
Definition tryCatch {A : Type} (m : M A) (h : Thrown -> M A) : M A :=
  fun s =>
    match m s with
    | (Ok a, s1, t1) => (Ok a, s1, t1)
    | (Throw e, s1, t1) => let '(r, s2, t2) := h e s1 in (r, s2, (t1 ++ t2)%list)
    end.

(** [try { m } finally { f }] where [f] only assigns module variables. *)
Definition tryFinally {A : Type} (m : M A) (f : State -> State) : M A :=
  fun s => let '(r, s1, t1) := m s in (r, f s1, t1).

Definition read {A : Type} (f : State -> A) : M A := fun s => (Ok (f s), s, []).

Definition assign (f : State -> State) : M unit := fun s => (Ok tt, f s, []).

(** Lifts a computation without effects. *)
Definition lift {A : Type} (r : Result A) : M A := fun s => (r, s, []).

Declare Scope js_scope.
Delimit Scope js_scope with js.
Notation "x <- m ;; k" := (bind m (fun x => k))
  (at level 61, m at next level, right associativity) : js_scope.
Notation "m ;; k" := (bind m (fun _ => k))
  (at level 61, right associativity) : js_scope.
Local Open Scope js_scope.

(** Components of a run. *)
Definition result_of {A : Type} (x : Result A * State * list Event) : Result A :=
  fst (fst x).
Definition state_of {A : Type} (x : Result A * State * list Event) : State :=
  snd (fst x).
Definition events_of {A : Type} (x : Result A * State * list Event)
  : list Event := snd x.

(* ================================================================== *)
(** ** [src/parser.ts] *)
(* ================================================================== *)

Definition BASE_URL : string := "https://fckairat.com/match".

Definition AKTOBE : string := "Актобе".
Definition REAL_MADRID : string := "Реал Мадрид".

(** The inner loop over [teamNames]: some trimmed name is [opponentName]. *)
Definition foundOpponent (matchBlock : MatchBlock) (opponentName : string)
  : bool :=
  existsb (fun teamName => trim teamName =? opponentName)
          (teamNames matchBlock).

(** Lines 68-76: the status read off a non-empty [button] selection. *)
Definition buttonStatus (env : Env) (button : Selection)
  : Result ButtonStatus :=
  let isEnabled := negb (hasClass button "disabled") in
  if truthy (attr button "href") then
    match attr button "href" with
    | Some h =>
      match newURL env h BASE_URL with
      | Some u => Ok (mkButtonStatus isEnabled u)
      | None => Throw (JsError "Invalid URL")
      end
    | None => Ok (mkButtonStatus isEnabled "")
    end
  else Ok (mkButtonStatus isEnabled "").

(** The closure [findMatchByOpponent]; the recursion is the loop over
    [matchBlocks], [continue] being the call on the remaining blocks. *)
Fixpoint findMatchByOpponent (env : Env) (matchBlocks : list MatchBlock)
         (opponentName : string) : Result (option ButtonStatus) :=
  match matchBlocks with
  | [] => Ok None
  | matchBlock :: rest =>
    if foundOpponent matchBlock opponentName then
      match ticketButtons matchBlock with
      | [] => findMatchByOpponent env rest opponentName
      | button =>
        match buttonStatus env button with
        | Ok st => Ok (Some st)
        | Throw e => Throw e
        end
      end
    else findMatchByOpponent env rest opponentName
  end.

(** Lines 29-100 of [parseButtons], for a lookup closure [lookup]:
    the block count is tested first, then both lookups run, then the
    two results are tested in turn. *)
Definition extract
           (lookup : list MatchBlock -> string -> Result (option ButtonStatus))
           (matchBlocks : Page) : Result ParseResult :=
  if (length matchBlocks =? 0)%nat then
    Throw (JsError "No match blocks found on the page")
  else
    match lookup matchBlocks AKTOBE with
    | Throw e => Throw e
    | Ok aktobeMatch =>
      match lookup matchBlocks REAL_MADRID with
      | Throw e => Throw e
      | Ok realMadridMatch =>
        match aktobeMatch with
        | None =>
          Throw (JsError ("Match against " ++ AKTOBE ++ " not found on the page"))
        | Some a =>
          match realMadridMatch with
          | None =>
            Throw (JsError ("Match against " ++ REAL_MADRID
                            ++ " not found on the page"))
          | Some r => Ok (mkParseResult a r)
          end
        end
      end
    end.

(** The [catch] clause of [parseButtons]. *)
Definition rethrow (error : Thrown) : Thrown :=
  match error with
  | AxiosError message response =>
    JsError ("HTTP error: " ++ message ++
             match response with
             | Some status => " (Status: " ++ toString status ++ ")"
             | None => ""
             end)
  | _ => error
  end.

Definition httpGet (env : Env) (url : string) : M Page :=
  fun s =>
    (axiosGet env (requests s), nextRequest s, [EvGet url]).

Definition parseButtons (env : Env) : M ParseResult :=
  tryCatch
    (matchBlocks <- httpGet env BASE_URL ;;
     lift (extract (findMatchByOpponent env) matchBlocks))
    (fun error => throw (rethrow error)).

Definition sleep (ms : Z) : M unit := fun s => (Ok tt, s, [EvSleep ms]).

Definition parseButtonsWithRetry (env : Env) : M ParseResult :=
  tryCatch
    (parseButtons env)
    (fun _ => sleep 2000 ;; parseButtons env).

(* ================================================================== *)
(** ** [src/notifier.ts] *)
(* ================================================================== *)

Definition getFormattedTime (env : Env) : M string :=
  fun s =>
    (Ok (clock env (clockReads s)), nextClock s, []).

(** [bot.sendMessage(chatId, text)] *)
Definition sendMessage (env : Env) (chatId text : string) : M unit :=
  fun s =>
    (match botSendMessage env (messages s) with
     | None => Ok tt
     | Some e => Throw e
     end,
     nextMessage s,
     [EvSend chatId text]).

Definition sendNotification (env : Env) (chatId message : string) : M unit :=
  tryCatch (sendMessage env chatId message) (fun error => throw error).

Definition statusChangeHead : string := "🎫 Для события " ++ dq.

Definition statusChangeMessage (eventTitle href : string) : string :=
  statusChangeHead ++ eventTitle ++ dq
  ++ " статус изменился, билеты в продаже!" ++ nl ++ nl
  ++ "🔗 Ссылка: " ++ href.

Definition sendStatusChange (env : Env) (chatId eventTitle href : string)
  : M unit :=
  sendNotification env chatId (statusChangeMessage eventTitle href).

Definition errorHead : string := "❌ Возникла ошибка во время запроса:".

Definition errorMessage (errorText timestamp : string) : string :=
  errorHead ++ nl ++ nl ++ errorText ++ nl ++ nl
  ++ "🕐 Время: " ++ timestamp ++ " (GMT+5)".

Definition sendError (env : Env) (chatId errorText : string) : M unit :=
  timestamp <- getFormattedTime env ;;
  sendNotification env chatId (errorMessage errorText timestamp).

Definition manualStatusLine (st : ButtonStatus) : string :=
  if isEnabled st then "✅ Включено (Ссылка: " ++ href st ++ ")"
  else "❌ Отключено".

Definition manualStatusMessage (result : ParseResult) (timestamp : string)
  : string :=
  "📊 Текущий статус билетов:" ++ nl ++ nl
  ++ "🎯 Матч с Актобе: " ++ manualStatusLine (aktobe result) ++ nl
  ++ "🎯 Матч с Реал Мадрид: " ++ manualStatusLine (realMadrid result)
  ++ nl ++ nl
  ++ "🕐 Время проверки: " ++ timestamp ++ " (GMT+5)"
  ++ nl ++ nl
  ++ "Источник: https://fckairat.com/match".

Definition sendManualStatus (env : Env) (chatId : string)
           (result : ParseResult) : M unit :=
  timestamp <- getFormattedTime env ;;
  sendNotification env chatId (manualStatusMessage result timestamp).

Definition operationalMessage (lastTime : string) : string :=
  "✅ Все работает корректно, без ошибок." ++ nl ++ nl
  ++ "🕐 Последний запрос: " ++ lastTime ++ " (GMT+5)".

Definition sendOperational (env : Env) (chatId : string) : M unit :=
  lastTime <- getFormattedTime env ;;
  sendNotification env chatId (operationalMessage lastTime).

Definition startupMessage (timestamp : string) : string :=
  "🚀 Kairat Notify Bot запущен!" ++ nl ++ nl
  ++ "📅 Время запуска: " ++ timestamp ++ " (GMT+5)" ++ nl
  ++ "⏰ Проверка каждые 5 минут" ++ nl
  ++ "📢 Операционные уведомления каждые 3 часа" ++ nl ++ nl
  ++ "💡 Используйте /status для ручной проверки".

Definition sendStartupNotification (env : Env) (chatId : string) : M unit :=
  timestamp <- getFormattedTime env ;;
  sendNotification env chatId (startupMessage timestamp).

(* ================================================================== *)
(** ** [src/index.ts] *)
(* ================================================================== *)

Definition AKTOBE_TITLE : string := "Матч с Актобе".
Definition REAL_MADRID_TITLE : string := "Матч с Реал Мадрид".

(** [error instanceof Error ? error.message : "Unknown error"] *)
Definition errorText (error : Thrown) : string :=
  match error with
  | JsError message => message
  | AxiosError message _ => message
  | NotAnError => "Unknown error"
  end.

(** [!previous.isEnabled && current.isEnabled] *)
Definition becameAvailable (previous current : ButtonStatus) : bool :=
  negb (isEnabled previous) && isEnabled current.

(** The [try] block of [checkAndNotify]. *)
Definition checkBody (env : Env) : M unit :=
  result <- parseButtonsWithRetry env ;;
  _ <- getFormattedTime env ;;
  previous <- read previousStatus ;;
  match previous with
  | Some previousStatus =>
    (if becameAvailable (aktobe previousStatus) (aktobe result)
     then sendStatusChange env (CHAT_ID env) AKTOBE_TITLE (href (aktobe result))
     else ret tt) ;;
    (if becameAvailable (realMadrid previousStatus) (realMadrid result)
     then sendStatusChange env (CHAT_ID env) REAL_MADRID_TITLE
                           (href (realMadrid result))
     else ret tt)
  | None => ret tt
  end ;;
  assign (set_previousStatus (Some result)).

Definition checkAndNotify (env : Env) : M unit :=
  checking <- read isChecking ;;
  if checking then ret tt
  else
    assign (set_isChecking true) ;;
    tryFinally
      (tryCatch (checkBody env)
                (fun error => sendError env (CHAT_ID env) (errorText error)))
      (set_isChecking false).

(** The handler of [/status]; [id] is [msg.chat.id]. *)
Definition onStatus (env : Env) (id : Z) : M unit :=
  let chatId := toString id in
  if negb (chatId =? CHAT_ID env) then ret tt
  else
    tryCatch
      (result <- parseButtonsWithRetry env ;;
       sendManualStatus env chatId result)
      (fun error => sendError env chatId (errorText error)).

Definition helpMessage : string :=
  "🤖 Kairat Notify Bot - Справка" ++ nl ++ nl
  ++ "📋 Доступные команды:" ++ nl
  ++ "• /status - Проверить текущий статус билетов" ++ nl
  ++ "• /help - Показать эту справку" ++ nl ++ nl
  ++ "⏰ Автоматические проверки:" ++ nl
  ++ "• Каждые 5 минут - проверка статуса" ++ nl
  ++ "• Каждые 3 часа - операционное уведомление" ++ nl ++ nl
  ++ "🎫 События:" ++ nl
  ++ "• Матч с Актобе" ++ nl
  ++ "• Матч с Реал Мадрид" ++ nl ++ nl
  ++ "🔔 Уведомления приходят только при изменении статуса с "
  ++ dq ++ "отключено" ++ dq ++ " на " ++ dq ++ "включено" ++ dq.

(** The handler of [/help]. *)
Definition onHelp (env : Env) (id : Z) : M unit :=
  let chatId := toString id in
  if negb (chatId =? CHAT_ID env) then ret tt
  else tryCatch (sendMessage env chatId helpMessage) (fun _ => ret tt).

(** The callback of the first [cron.schedule]:
    [checkAndNotify().catch(console.error)]. *)
Definition onCheckTick (env : Env) : M unit :=
  tryCatch (checkAndNotify env) (fun _ => ret tt).

(** The callback of the second [cron.schedule]. *)
Definition onOperationalTick (env : Env) : M unit :=
  tryCatch (sendOperational env (CHAT_ID env)) (fun _ => ret tt).

(** The values of the module variables when the module is loaded. *)
Definition initialState : State := mkState None false 0 0 0.

(** How [startBot] ends: the process keeps running, or [process.exit]. *)
Inductive Startup : Type :=
| Running
| Exited (code : Z).

Definition startBot (env : Env) (s : State) : Startup * State * list Event :=
  match (sendStartupNotification env (CHAT_ID env) ;; checkAndNotify env) s with
  | (Ok _, s1, t1) => (Running, s1, t1)
  | (Throw _, s1, t1) => (Exited 1, s1, t1)
  end.

(** What the timers and the bot library call once the module is loaded. *)
Inductive Trigger : Type :=
| CheckTick
| OperationalTick
| StatusCommand (id : Z)
| HelpCommand (id : Z).

Definition handle (env : Env) (t : Trigger) : M unit :=
  match t with
  | CheckTick => onCheckTick env
  | OperationalTick => onOperationalTick env
  | StatusCommand id => onStatus env id
  | HelpCommand id => onHelp env id
  end.

(** The states between two callbacks: the one [startBot] leaves, and
    the one any callback leaves when started in such a state. *)
Inductive reachable (env : Env) : State -> Prop :=
| reach_start : reachable env (snd (fst (startBot env initialState)))
| reach_step (s : State) (t : Trigger) :
    reachable env s -> reachable env (state_of (handle env t s)).

(* ================================================================== *)
(** ** Vocabulary of the properties *)
(* ================================================================== *)

(** The error raised when the lookup of [name] returns [null]. *)
Definition notFoundError (name : string) : Thrown :=
  JsError ("Match against " ++ name ++ " not found on the page").

Definition isEmpty {A : Type} (l : list A) : bool :=
  match l with [] => true | _ => false end.

(** The block at which the scan for [name] stops: the first one that
    names the opponent and holds a ticket button. *)
Definition selectedBlock (matchBlocks : list MatchBlock) (name : string)
  : option MatchBlock :=
  find (fun b => foundOpponent b name && negb (isEmpty (ticketButtons b)))
       matchBlocks.

(** A Status-change notification for the event titled [title]. *)
Definition isStatusChangeFor (title : string) (ev : Event) : bool :=
  match ev with
  | EvSend _ text => prefix (statusChangeHead ++ title ++ dq) text
  | _ => false
  end.

Definition isErrorNotification (ev : Event) : bool :=
  match ev with
  | EvSend _ text => prefix errorHead text
  | _ => false
  end.

Definition isSend (ev : Event) : bool :=
  match ev with EvSend _ _ => true | _ => false end.

Definition isGet (ev : Event) : bool :=
  match ev with EvGet _ => true | _ => false end.

(** A Status-change notification for [title] is among the events. *)
Definition notified (title : string) (evs : list Event) : bool :=
  existsb (isStatusChangeFor title) evs.

(** The state in which the [try] block of [checkAndNotify] starts. *)
Definition entered (s : State) : State := set_isChecking true s.

(** What the [n]-th request yields once [parseButtons] has handled it. *)
Definition fetchResult (env : Env) (n : nat) : Result ParseResult :=
  match axiosGet env n with
  | Ok page =>
    match extract (findMatchByOpponent env) page with
    | Ok r => Ok r
    | Throw e => Throw (rethrow e)
    end
  | Throw e => Throw (rethrow e)
  end.

(** Outcome of the [n]-th [bot.sendMessage] for its caller. *)
Definition delivery (env : Env) (n : nat) : Result unit :=
  match botSendMessage env n with
  | None => Ok tt
  | Some e => Throw e
  end.

Definition delivered (env : Env) (n : nat) : bool :=
  match botSendMessage env n with
  | None => true
  | Some _ => false
  end.

(** *** Statements that the code does not meet as they stand

    Each one is refuted below on a sample environment, next to the
    statement that does hold. *)
Module Stated.

(** A Status-change notification for a match is sent exactly when the
    stored status has it disabled and the fetched one has it enabled. *)
Definition edgeTriggered (env : Env) (s : State) : Prop :=
  forall current,
    isChecking s = false ->
    result_of (parseButtonsWithRetry env (entered s)) = Ok current ->
    let evs := events_of (checkAndNotify env s) in
    match previousStatus s with
    | Some previous =>
      notified AKTOBE_TITLE evs
      = becameAvailable (aktobe previous) (aktobe current)
      /\ notified REAL_MADRID_TITLE evs
         = becameAvailable (realMadrid previous) (realMadrid current)
    | None =>
      notified AKTOBE_TITLE evs = false
      /\ notified REAL_MADRID_TITLE evs = false
    end.

(** A cycle whose [try] block throws sends one Error notification with
    the text of the error, returns normally and keeps the stored
    status. *)
Definition errorsAbsorbed (env : Env) (s : State) : Prop :=
  forall error,
    isChecking s = false ->
    result_of (checkBody env (entered s)) = Throw error ->
    let run := checkAndNotify env s in
    (exists timestamp,
        filter isErrorNotification (events_of run)
        = [EvSend (CHAT_ID env) (errorMessage (errorText error) timestamp)])
    /\ result_of run = Ok tt
    /\ previousStatus (state_of run) = previousStatus s.

(** The link is the resolved [href] whenever the attribute is present. *)
Definition link (env : Env) (button : Selection) : option string :=
  match attr button "href" with
  | Some h => newURL env h BASE_URL
  | None => Some ""
  end.

Definition statusOfSelected (env : Env) (page : Page) (name : string)
  : Prop :=
  forall b,
    selectedBlock page name = Some b ->
    exists st,
      findMatchByOpponent env page name = Ok (Some st)
      /\ isEnabled st
         = negb (isEmpty (ticketButtons b))
           && negb (hasClass (ticketButtons b) "disabled")
      /\ link env (ticketButtons b) = Some (href st).

(** A page on which a lookup returns [null] makes the extraction fail
    with the not-found error of an entity whose lookup returned [null]. *)
Definition missingEntityNamed (env : Env) (page : Page) : Prop :=
  page <> [] ->
  findMatchByOpponent env page AKTOBE = Ok None
  \/ findMatchByOpponent env page REAL_MADRID = Ok None ->
  exists name,
    findMatchByOpponent env page name = Ok None
    /\ extract (findMatchByOpponent env) page = Throw (notFoundError name).

(** When no block naming [name] holds a ticket button, the extraction
    fails with the not-found error of [name]. *)
Definition buttonlessReported (env : Env) (page : Page) (name : string)
  : Prop :=
  page <> [] ->
  (forall b, In b page -> foundOpponent b name = true ->
             ticketButtons b = []) ->
  extract (findMatchByOpponent env) page = Throw (notFoundError name).

End Stated.

(* ================================================================== *)
(** ** Sample environments *)
(* ================================================================== *)

Module Sample.

(** Values of [new URL(input, BASE_URL).href] at the inputs that occur
    in the sample pages: the empty reference resolves to the base, a
    path-absolute reference replaces the path, an absolute URL is kept,
    and a special scheme without a host is rejected.  No sample page
    holds another [href]; the table says [None] there. *)
Definition urlTable : list (string * option string) :=
  [ ("", Some BASE_URL);
    ("/tickets/aktobe", Some "https://fckairat.com/tickets/aktobe");
    ("/tickets/real", Some "https://fckairat.com/tickets/real");
    ("https://x/a", Some "https://x/a");
    ("https://", None) ].

Fixpoint lookupURL (t : list (string * option string)) (input : string)
  : option string :=
  match t with
  | [] => None
  | (k, v) :: t' => if k =? input then v else lookupURL t' input
  end.

Definition url (input base : string) : option string :=
  if base =? BASE_URL then lookupURL urlTable input else None.

Definition ticketClasses : list string :=
  ["match-block__tickets"; "skew"; "simple-filled-btn"].

Definition buttonOn (link : string) : Element :=
  mkElement ticketClasses [("href", link)].

Definition buttonOff : Element :=
  mkElement (ticketClasses ++ ["disabled"])%list [].

Definition blockOf (opponent : string) (buttons : Selection) : MatchBlock :=
  mkMatchBlock ["Кайрат"; "  " ++ opponent ++ nl] buttons.

(** Both matches listed, no ticket on sale. *)
Definition pageClosed : Page :=
  [ blockOf AKTOBE [buttonOff]; blockOf REAL_MADRID [buttonOff] ].

(** Both matches on sale. *)
Definition pageOpen : Page :=
  [ blockOf AKTOBE [buttonOn "/tickets/aktobe"];
    blockOf REAL_MADRID [buttonOn "/tickets/real"] ].

(** Only the first match on sale, with an absolute link. *)
Definition pageAktobeOpen : Page :=
  [ blockOf AKTOBE [buttonOn "https://x/a"];
    blockOf REAL_MADRID [buttonOff] ].

(** The ticket link of the first match has an empty [href]. *)
Definition pageEmptyHref : Page :=
  [ blockOf AKTOBE [buttonOn ""]; blockOf REAL_MADRID [buttonOff] ].

(** Both matches listed, neither block holds a ticket button. *)
Definition pageNoButtons : Page :=
  [ blockOf AKTOBE []; blockOf REAL_MADRID [] ].

(** The first match is not listed; the link of the second one is not
    a URL. *)
Definition pageBadLink : Page :=
  [ blockOf "Астана" [buttonOff];
    blockOf REAL_MADRID [buttonOn "https://"] ].

(** A block without button precedes the block that holds it. *)
Definition pageSecondBlock : Page :=
  [ blockOf AKTOBE []; blockOf AKTOBE [buttonOn "/tickets/aktobe"];
    blockOf REAL_MADRID [buttonOff] ].

Definition telegramDown : Thrown :=
  JsError "ETELEGRAM: 502 Bad Gateway".

Definition timeout : Thrown :=
  AxiosError "timeout of 10000ms exceeded" None.

Definition time (n : nat) : string := "2025-09-30 12:0" ++ toString (Z.of_nat n).

(** Every request is served [page]; every message is delivered. *)
Definition serving (page : Page) : Env :=
  mkEnv "123456" url (fun _ => Ok page) (fun _ => None) time.

(** Every request is served [page]; no message gets through. *)
Definition outage (page : Page) : Env :=
  mkEnv "123456" url (fun _ => Ok page) (fun _ => Some telegramDown) time.

(** No request is answered; every message is delivered. *)
Definition offline : Env :=
  mkEnv "123456" url (fun _ => Throw timeout) (fun _ => None) time.

(** The first request times out, the following ones are served [page]. *)
Definition flaky (page : Page) : Env :=
  mkEnv "123456" url
        (fun n => match n with O => Throw timeout | _ => Ok page end)
        (fun _ => None) time.

(** Only the first match is listed. *)
Definition pageAktobeOnly : Page :=
  [ blockOf AKTOBE [buttonOn "/tickets/aktobe"] ].

Definition notFound : Thrown :=
  AxiosError "Request failed with status code 404" (Some 404%Z).

(** Every request is answered 404; every message is delivered. *)
Definition gone : Env :=
  mkEnv "123456" url (fun _ => Throw notFound) (fun _ => None) time.

(** Every request is served [page]; the first two messages are refused,
    the following ones delivered. *)
Definition hiccup (page : Page) : Env :=
  mkEnv "123456" url (fun _ => Ok page)
        (fun n => if (n <? 2)%nat then Some telegramDown else None) time.

(** The first request is served the page with no ticket on sale, the
    following ones the page with both on sale; every message is
    delivered. *)
Definition opening : Env :=
  mkEnv "123456" url
        (fun n => match n with O => Ok pageClosed | _ => Ok pageOpen end)
        (fun _ => None) time.

Definition closed : ParseResult :=
  mkParseResult (mkButtonStatus false "") (mkButtonStatus false "").

Definition onSale : ParseResult :=
  mkParseResult
    (mkButtonStatus true "https://fckairat.com/tickets/aktobe")
    (mkButtonStatus true "https://fckairat.com/tickets/real").

(** The state of the process before its first check. *)
Definition fresh : State := mkState None false 0 0 0.

(** Idle, with [previous] as the stored result. *)
Definition idle (previous : ParseResult) : State :=
  mkState (Some previous) false 0 0 0.

(** A check cycle is in flight. *)
Definition busy : State := mkState (Some closed) true 1 0 0.

End Sample.

(* ================================================================== *)
(** ** Vocabulary of the effects *)
(* ================================================================== *)

(** Requests go to [url] and messages to [chat]. *)
Definition targets (url chat : string) (ev : Event) : Prop :=
  match ev with
  | EvGet u => u = url
  | EvSleep _ => True
  | EvSend c _ => c = chat
  end.

Definition isSleep (ev : Event) : bool :=
  match ev with EvSleep _ => true | _ => false end.

(** The Status-change notifications that are due, Актобе first. *)
Definition dueNotifications (chat : string) (previous current : ParseResult)
  : list Event :=
  ((if becameAvailable (aktobe previous) (aktobe current)
    then [EvSend chat (statusChangeMessage AKTOBE_TITLE (href (aktobe current)))]
    else [])
   ++
   (if becameAvailable (realMadrid previous) (realMadrid current)
    then [EvSend chat (statusChangeMessage REAL_MADRID_TITLE
                                           (href (realMadrid current)))]
    else []))%list.

(** The module variables, without the cursors. *)
Definition variables (s : State) : option ParseResult * bool :=
  (previousStatus s, isChecking s).

(* ================================================================== *)
(** ** Proof tools *)
(* ================================================================== *)

Arguments statusChangeMessage : simpl never.
Arguments errorMessage : simpl never.
Arguments manualStatusMessage : simpl never.
Arguments helpMessage : simpl never.
Arguments isStatusChangeFor : simpl never.
Arguments isErrorNotification : simpl never.
Arguments operationalMessage : simpl never.
Arguments startupMessage : simpl never.

(** Rewriting rules that tell the kinds of message apart. *)
Create Rewrite HintDb notes.

(** Unfolds the monad and the notifier down to the environment. *)
Ltac run_cycle :=
  unfold checkAndNotify, checkBody, sendError, sendStatusChange,
    sendNotification, sendMessage, getFormattedTime, tryFinally, tryCatch,
    bind, read, assign, ret, throw, lift, entered,
    result_of, state_of, events_of in *.

Ltac notes :=
  cbn [app filter existsb orb andb negb notified fst snd length
       previousStatus isChecking requests messages clockReads
       set_previousStatus set_isChecking nextRequest nextMessage nextClock] in *;
  autorewrite with notes in *;
  cbn [app filter existsb orb andb negb notified fst snd length] in *.

(** Unfolds every callback down to the environment. *)
Ltac run_handlers :=
  unfold handle, onCheckTick, onOperationalTick, onStatus, onHelp, startBot,
    sendOperational, sendStartupNotification, sendManualStatus,
    checkAndNotify, checkBody, sendError, sendStatusChange,
    sendNotification, sendMessage, getFormattedTime, tryFinally, tryCatch,
    bind, read, assign, ret, throw, lift, entered,
    result_of, state_of, events_of, variables in *.

(** Splits a run of the check cycle by the outcome of the fetch, the
    stored status, the changes and the deliveries. *)
Ltac cycle_cases env s :=
  cbn [requests set_isChecking nextRequest nextMessage nextClock];
  let current := fresh "current" in
  let F1 := fresh "F1" in
  let F2 := fresh "F2" in
  destruct (fetchResult env (requests s)) as [current | ?] eqn:F1;
  [| destruct (fetchResult env (S (requests s))) as [current | ?] eqn:F2];
  cbn;
  let P := fresh "P" in
  let A := fresh "A" in
  let R := fresh "R" in
  try (destruct (previousStatus s) as [previous |] eqn:P;
       [destruct (becameAvailable (aktobe previous) (aktobe current)) eqn:A;
        destruct (becameAvailable (realMadrid previous) (realMadrid current))
                 eqn:R
       |]);
  cbn;
  destruct (botSendMessage env (messages s)); cbn;
  try (destruct (botSendMessage env (S (messages s))); cbn);
  try (destruct (botSendMessage env (S (S (messages s)))); cbn);
  rewrite ?P.

(* ================================================================== *)
(** ** Runs of the fetch and of its retry *)
(* ================================================================== *)

Section Fetch.

Variable env : Env.

Lemma rethrow_JsError (message : string) :
  rethrow (JsError message) = JsError message.
Proof. reflexivity. Qed.

(** One attempt is one GET; its outcome is [fetchResult] at the
    cursor, and only the cursor moves. *)
Lemma parseButtons_run (s : State) :
  parseButtons env s
  = (fetchResult env (requests s), nextRequest s, [EvGet BASE_URL]).
Proof.
  unfold parseButtons, tryCatch, bind, httpGet, lift, throw, fetchResult.
  destruct (axiosGet env (requests s)) as [page | e]; simpl.
  - destruct (extract (findMatchByOpponent env) page); reflexivity.
  - reflexivity.
Qed.

Lemma parseButtonsWithRetry_run (s : State) :
  parseButtonsWithRetry env s
  = match fetchResult env (requests s) with
    | Ok r => (Ok r, nextRequest s, [EvGet BASE_URL])
    | Throw _ =>
      (fetchResult env (S (requests s)),
       nextRequest (nextRequest s),
       [EvGet BASE_URL; EvSleep 2000; EvGet BASE_URL])
    end.
Proof.
  unfold parseButtonsWithRetry, tryCatch, bind, sleep.
  rewrite parseButtons_run.
  destruct (fetchResult env (requests s)) as [r | e]; [reflexivity|].
  rewrite parseButtons_run. simpl.
  destruct (fetchResult env (S (requests s))); reflexivity.
Qed.

(** The retry wrapper touches neither the module variables nor the
    Telegram and clock cursors, and sends nothing. *)
Lemma parseButtonsWithRetry_frame (s : State) :
  let run := parseButtonsWithRetry env s in
  previousStatus (state_of run) = previousStatus s
  /\ isChecking (state_of run) = isChecking s
  /\ messages (state_of run) = messages s
  /\ clockReads (state_of run) = clockReads s
  /\ filter isSend (events_of run) = [].
Proof.
  rewrite parseButtonsWithRetry_run.
  destruct (fetchResult env (requests s)); simpl; repeat split.
Qed.

End Fetch.

(** C4. The retry wrapper makes one attempt; when that attempt succeeds
    its result is returned after that single GET; when it fails, the
    wrapper sleeps 2000 ms and makes exactly one more attempt, on the next
    request, and returns whatever that attempt returns or throws,
    unchanged. *)
Theorem retry_once (env : Env) (s : State) :
  let '(r1, s1, t1) := parseButtons env s in
  t1 = [EvGet BASE_URL]
  /\ requests s1 = S (requests s)
  /\ match r1 with
     | Ok v => parseButtonsWithRetry env s = (Ok v, s1, [EvGet BASE_URL])
     | Throw _ =>
       let '(r2, s2, t2) := parseButtons env s1 in
       parseButtonsWithRetry env s
       = (r2, s2, [EvGet BASE_URL; EvSleep 2000; EvGet BASE_URL])
       /\ t2 = [EvGet BASE_URL]
       /\ length (filter isGet (events_of (parseButtonsWithRetry env s))) = 2
     end.
Proof.
  rewrite parseButtons_run. split; [reflexivity|]. split; [reflexivity|].
  destruct (fetchResult env (requests s)) as [v | e] eqn:E1.
  - rewrite parseButtonsWithRetry_run, E1. reflexivity.
  - rewrite parseButtons_run, parseButtonsWithRetry_run, E1. simpl.
    repeat split.
Qed.

(* ================================================================== *)
(** ** The guard of the check cycle *)
(* ================================================================== *)

(** C2. An invocation that finds [isChecking] set returns at once: no
    request, no message, no change of state.  An invocation that finds it
    clear leaves it clear when the function returns, whether the cycle
    succeeded, reported an error, or failed to report it. *)
Theorem guard_skips_and_releases (env : Env) (s : State) :
  if isChecking s
  then checkAndNotify env s = (Ok tt, s, [])
  else isChecking (state_of (checkAndNotify env s)) = false.
Proof.
  unfold checkAndNotify, bind, read, assign, ret.
  destruct (isChecking s) eqn:G; simpl.
  - reflexivity.
  - unfold tryFinally.
    destruct (tryCatch _ _ _) as [[r s1] t1]. reflexivity.
Qed.

(* ================================================================== *)
(** ** Commands from other chats *)
(* ================================================================== *)

(** C9. A [/status] or [/help] message whose chat identifier, printed in
    decimal, is not [CHAT_ID] is dropped: the handler returns without a
    request, without a message, and leaves the state as it was. *)
Theorem unauthorized_ignored (env : Env) (id : Z) (s : State) :
  toString id <> CHAT_ID env ->
  onStatus env id s = (Ok tt, s, [])
  /\ onHelp env id s = (Ok tt, s, []).
Proof.
  intros H. apply String.eqb_neq in H.
  unfold onStatus, onHelp. rewrite H. split; reflexivity.
Qed.

Lemma unauthorized_ignored_witness :
  toString 777 <> CHAT_ID (Sample.serving Sample.pageOpen)
  /\ onStatus (Sample.serving Sample.pageOpen) 777 Sample.fresh
     = (Ok tt, Sample.fresh, [])
  /\ onHelp (Sample.serving Sample.pageOpen) 777 Sample.fresh
     = (Ok tt, Sample.fresh, []).
Proof.
  assert (H : toString 777 <> CHAT_ID (Sample.serving Sample.pageOpen))
    by (vm_compute; discriminate).
  split; [exact H|].
  exact (unauthorized_ignored (Sample.serving Sample.pageOpen) 777
                              Sample.fresh H).
Defined.

(* ================================================================== *)
(** ** Extraction *)
(* ================================================================== *)

Section Extraction.

Variable env : Env.

(** C7. On a page without match block the extraction fails on the
    block count, whatever the lookup closure would do, so before any
    lookup; [parseButtons] then throws that error and yields no
    result. *)
Theorem no_blocks_fails_first (page : Page) (s : State) :
  length page = 0%nat ->
  (forall lookup,
      extract lookup page = Throw (JsError "No match blocks found on the page"))
  /\ (axiosGet env (requests s) = Ok page ->
      result_of (parseButtons env s)
      = Throw (JsError "No match blocks found on the page")).
Proof.
  intros H. split.
  - intros lookup. unfold extract. rewrite H. reflexivity.
  - intros G. rewrite parseButtons_run. unfold result_of, fetchResult; simpl.
    rewrite G. unfold extract. rewrite H. reflexivity.
Qed.

(** The scan, one block at a time. *)
Lemma findMatchByOpponent_skip_name (b : MatchBlock) (rest : list MatchBlock)
      (name : string) :
  foundOpponent b name = false ->
  findMatchByOpponent env (b :: rest) name
  = findMatchByOpponent env rest name.
Proof. intros H. simpl. rewrite H. reflexivity. Qed.

Lemma findMatchByOpponent_skip_button (b : MatchBlock)
      (rest : list MatchBlock) (name : string) :
  foundOpponent b name = true ->
  ticketButtons b = [] ->
  findMatchByOpponent env (b :: rest) name
  = findMatchByOpponent env rest name.
Proof. intros H B. simpl. rewrite H, B. reflexivity. Qed.

Lemma findMatchByOpponent_stop (b : MatchBlock) (rest : list MatchBlock)
      (name : string) :
  foundOpponent b name = true ->
  isEmpty (ticketButtons b) = false ->
  findMatchByOpponent env (b :: rest) name
  = match buttonStatus env (ticketButtons b) with
    | Ok st => Ok (Some st)
    | Throw e => Throw e
    end.
Proof.
  intros H B. simpl. rewrite H.
  destruct (ticketButtons b); [discriminate B | reflexivity].
Qed.

(** The scan is the status of the selected block, and [null] when no
    block is selected. *)
Lemma findMatchByOpponent_selected (page : Page) (name : string) :
  findMatchByOpponent env page name
  = match selectedBlock page name with
    | Some b =>
      match buttonStatus env (ticketButtons b) with
      | Ok st => Ok (Some st)
      | Throw e => Throw e
      end
    | None => Ok None
    end.
Proof.
  unfold selectedBlock.
  induction page as [| b rest IH]; [reflexivity|].
  cbn [find].
  destruct (foundOpponent b name) eqn:F.
  - destruct (isEmpty (ticketButtons b)) eqn:B; cbn [andb negb].
    + rewrite findMatchByOpponent_skip_button; auto.
      destruct (ticketButtons b); [reflexivity | discriminate B].
    + apply findMatchByOpponent_stop; assumption.
  - cbn [andb]. rewrite findMatchByOpponent_skip_name; auto.
Qed.

Lemma selectedBlock_holds_button (page : Page) (name : string)
      (b : MatchBlock) :
  selectedBlock page name = Some b ->
  In b page /\ foundOpponent b name = true
  /\ isEmpty (ticketButtons b) = false.
Proof.
  unfold selectedBlock. intros H. apply find_some in H.
  destruct H as [I H]. apply andb_true_iff in H. destruct H as [F B].
  apply negb_true_iff in B. auto.
Qed.

(** C5, as the code has it.  For the block at which the scan stops,
    the ticket button is present and [isEnabled] is "present and
    without the class disabled"; [href] is the empty string when the
    attribute is absent or empty, and otherwise the [href] resolved
    against [BASE_URL]; when the URL constructor rejects it the scan
    throws. *)
Theorem selected_block_status (page : Page) (name : string)
        (b : MatchBlock) :
  selectedBlock page name = Some b ->
  let button := ticketButtons b in
  let enabled := negb (isEmpty button) && negb (hasClass button "disabled") in
  findMatchByOpponent env page name
  = match attr button "href" with
    | None => Ok (Some (mkButtonStatus enabled ""))
    | Some h =>
      if h =? "" then Ok (Some (mkButtonStatus enabled ""))
      else
        match newURL env h BASE_URL with
        | Some u => Ok (Some (mkButtonStatus enabled u))
        | None => Throw (JsError "Invalid URL")
        end
    end.
Proof.
  intros H. rewrite findMatchByOpponent_selected, H.
  apply selectedBlock_holds_button in H. destruct H as [_ [_ B]].
  cbv zeta. rewrite B. cbn [negb andb].
  unfold buttonStatus, truthy.
  destruct (attr (ticketButtons b) "href") as [h |]; [|reflexivity].
  destruct (h =? ""); cbn [negb]; [reflexivity|].
  destruct (newURL env h BASE_URL); reflexivity.
Qed.

End Extraction.

Lemma no_blocks_fails_first_witness :
  length (@nil MatchBlock) = 0%nat
  /\ (forall lookup,
         extract lookup [] = Throw (JsError "No match blocks found on the page"))
  /\ (axiosGet (Sample.serving []) (requests Sample.fresh) = Ok [] ->
      result_of (parseButtons (Sample.serving []) Sample.fresh)
      = Throw (JsError "No match blocks found on the page")).
Proof.
  split; [reflexivity|].
  exact (no_blocks_fails_first (Sample.serving []) [] Sample.fresh eq_refl).
Defined.

Lemma selected_block_status_witness :
  selectedBlock Sample.pageSecondBlock AKTOBE
  = Some (Sample.blockOf AKTOBE [Sample.buttonOn "/tickets/aktobe"])
  /\ findMatchByOpponent (Sample.serving Sample.pageSecondBlock)
                         Sample.pageSecondBlock AKTOBE
     = Ok (Some (mkButtonStatus true "https://fckairat.com/tickets/aktobe")).
Proof.
  assert (H : selectedBlock Sample.pageSecondBlock AKTOBE
              = Some (Sample.blockOf AKTOBE [Sample.buttonOn "/tickets/aktobe"]))
    by (vm_compute; reflexivity).
  split; [exact H|].
  exact (selected_block_status (Sample.serving Sample.pageSecondBlock)
                               Sample.pageSecondBlock AKTOBE _ H).
Defined.

(** C5 as stated fails: a ticket link whose [href] attribute is present
    and empty gets the empty string as its link, where resolving the
    attribute against [BASE_URL] gives [BASE_URL]. *)
Lemma empty_href_not_resolved :
  ~ Stated.statusOfSelected (Sample.serving Sample.pageEmptyHref)
                            Sample.pageEmptyHref AKTOBE.
Proof.
  intros C.
  destruct (C (Sample.blockOf AKTOBE [Sample.buttonOn ""]))
    as [st [F [_ L]]]; [vm_compute; reflexivity|].
  vm_compute in F. vm_compute in L.
  injection F as F. subst st. discriminate L.
Qed.

Section ExtractionFailures.

Variable env : Env.

(** The extraction on a page with at least one block, by the outcome
    of the two lookups. *)
Lemma extract_cases (page : Page) :
  page <> [] ->
  extract (findMatchByOpponent env) page
  = match findMatchByOpponent env page AKTOBE, findMatchByOpponent env page REAL_MADRID with
    | Throw e, _ => Throw e
    | Ok _, Throw e => Throw e
    | Ok None, Ok _ => Throw (notFoundError AKTOBE)
    | Ok (Some _), Ok None => Throw (notFoundError REAL_MADRID)
    | Ok (Some a), Ok (Some r) => Ok (mkParseResult a r)
    end.
Proof.
  intros N. unfold extract.
  destruct page as [| b rest]; [contradiction|]. cbn [length Nat.eqb].
  destruct (findMatchByOpponent env (b :: rest) AKTOBE) as [[a |] | e];
    destruct (findMatchByOpponent env (b :: rest) REAL_MADRID) as [[r |] | e']; reflexivity.
Qed.

Lemma findMatchByOpponent_buttonless (page : Page) (name : string) :
  (forall b, In b page -> foundOpponent b name = true ->
             ticketButtons b = []) ->
  findMatchByOpponent env page name = Ok None.
Proof.
  induction page as [| b rest IH]; intros H; [reflexivity|].
  destruct (foundOpponent b name) eqn:F.
  - rewrite findMatchByOpponent_skip_button; auto using in_eq.
    apply IH. intros b' I. apply H. now right.
  - rewrite findMatchByOpponent_skip_name; auto.
    apply IH. intros b' I. apply H. now right.
Qed.

(** The lookups throw nothing but the error of the URL constructor. *)
Lemma findMatchByOpponent_throws (page : Page) (name : string) (e : Thrown) :
  findMatchByOpponent env page name = Throw e -> e = JsError "Invalid URL".
Proof.
  rewrite findMatchByOpponent_selected.
  destruct (selectedBlock page name) as [b |]; [|discriminate].
  unfold buttonStatus.
  destruct (truthy (attr (ticketButtons b) "href")); [|discriminate].
  destruct (attr (ticketButtons b) "href") as [h |]; [|discriminate].
  destruct (newURL env h BASE_URL); [discriminate|].
  intros H. injection H as <-. reflexivity.
Qed.

(** Served [page], [parseButtons] returns what the extraction returns:
    the [catch] clause rethrows its errors as they are. *)
Lemma parseButtons_served (page : Page) (s : State) :
  axiosGet env (requests s) = Ok page ->
  result_of (parseButtons env s) = extract (findMatchByOpponent env) page.
Proof.
  intros G. rewrite parseButtons_run. unfold result_of, fetchResult.
  cbn [fst]. rewrite G.
  destruct (extract (findMatchByOpponent env) page) as [r | e] eqn:X;
    [reflexivity|].
  f_equal. unfold extract in X.
  destruct (length page =? 0)%nat; [injection X as <-; reflexivity|].
  destruct (findMatchByOpponent env page AKTOBE) as [a | ea] eqn:EA.
  - destruct (findMatchByOpponent env page REAL_MADRID) as [r | er] eqn:ER.
    + destruct a; [destruct r; [discriminate|] |];
        injection X as <-; reflexivity.
    + injection X as <-.
      rewrite (findMatchByOpponent_throws _ _ _ ER). reflexivity.
  - injection X as <-.
    rewrite (findMatchByOpponent_throws _ _ _ EA). reflexivity.
Qed.

(** C10, as the code has it.  A block that names the opponent and holds
    no ticket button is passed over and the scan goes on with the blocks
    after it.  When no block naming the opponent holds a button the
    lookup returns [null], never a disabled status, and the extraction
    of a page with blocks yields no result: it throws the not-found
    error of that entity, unless the lookup of the other entity throws
    first or, for Реал Мадрид, Актобе is missing too and is the one
    reported. *)
Theorem buttonless_blocks_skipped (page : Page) (name : string) :
  (forall b rest,
      foundOpponent b name = true -> ticketButtons b = [] ->
      findMatchByOpponent env (b :: rest) name = findMatchByOpponent env rest name)
  /\ ((forall b, In b page -> foundOpponent b name = true ->
                 ticketButtons b = []) ->
      findMatchByOpponent env page name = Ok None
      /\ (page <> [] ->
          (name = AKTOBE \/ name = REAL_MADRID ->
           forall r, extract (findMatchByOpponent env) page <> Ok r)
          /\ (name = AKTOBE ->
              extract (findMatchByOpponent env) page
              = match findMatchByOpponent env page REAL_MADRID with
                | Throw e => Throw e
                | Ok _ => Throw (notFoundError AKTOBE)
                end)
          /\ (name = REAL_MADRID ->
              extract (findMatchByOpponent env) page
              = match findMatchByOpponent env page AKTOBE with
                | Throw e => Throw e
                | Ok None => Throw (notFoundError AKTOBE)
                | Ok (Some _) => Throw (notFoundError REAL_MADRID)
                end))).
Proof.
  split.
  - intros b rest F B. now apply findMatchByOpponent_skip_button.
  - intros H. pose proof (findMatchByOpponent_buttonless page name H) as E.
    split; [exact E|]. intros N. rewrite (extract_cases page N).
    repeat split.
    + intros [-> | ->] r; rewrite E.
      * destruct (findMatchByOpponent env page REAL_MADRID) as [[m |] | em]; discriminate.
      * destruct (findMatchByOpponent env page AKTOBE) as [[a |] | ea]; discriminate.
    + intros ->. rewrite E.
      destruct (findMatchByOpponent env page REAL_MADRID) as [[m |] | em]; reflexivity.
    + intros ->. rewrite E.
      destruct (findMatchByOpponent env page AKTOBE) as [[a |] | ea]; reflexivity.
Qed.

End ExtractionFailures.

Lemma buttonless_blocks_skipped_witness :
  (forall b, In b Sample.pageNoButtons -> foundOpponent b AKTOBE = true ->
             ticketButtons b = [])
  /\ findMatchByOpponent (Sample.serving Sample.pageNoButtons)
                         Sample.pageNoButtons AKTOBE = Ok None
  /\ extract (findMatchByOpponent (Sample.serving Sample.pageNoButtons))
             Sample.pageNoButtons
     = Throw (notFoundError AKTOBE).
Proof.
  assert (H : forall b, In b Sample.pageNoButtons ->
                        foundOpponent b AKTOBE = true -> ticketButtons b = []).
  { intros b [<- | [<- | []]] F; [reflexivity | vm_compute in F; discriminate F]. }
  split; [exact H|].
  destruct (buttonless_blocks_skipped (Sample.serving Sample.pageNoButtons)
                                      Sample.pageNoButtons AKTOBE)
    as [_ K].
  destruct (K H) as [E X]. split; [exact E|].
  destruct X as [_ [A _]]; [discriminate|].
  exact (A eq_refl).
Defined.

(** C10 as stated fails: on a page where neither match holds a ticket
    button, every block naming Реал Мадрид lacks the button, and the
    extraction throws the not-found error of Актобе, the entity tested
    first, not that of Реал Мадрид. *)
Lemma both_missing_reports_aktobe :
  ~ Stated.buttonlessReported (Sample.serving Sample.pageNoButtons)
                              Sample.pageNoButtons REAL_MADRID.
Proof.
  intros C.
  assert (E : extract (findMatchByOpponent (Sample.serving Sample.pageNoButtons))
                      Sample.pageNoButtons
              = Throw (notFoundError REAL_MADRID)).
  { apply C; [discriminate|].
    intros b [<- | [<- | []]] F; [vm_compute in F; discriminate F | reflexivity]. }
  vm_compute in E. discriminate E.
Qed.

(* ================================================================== *)
(** ** The check cycle *)
(* ================================================================== *)

Section Messages.

Variables (chat link text stamp title : string).

Lemma aktobe_is_aktobe :
  isStatusChangeFor AKTOBE_TITLE
                    (EvSend chat (statusChangeMessage AKTOBE_TITLE link))
  = true.
Proof. reflexivity. Qed.

Lemma aktobe_is_not_realMadrid :
  isStatusChangeFor REAL_MADRID_TITLE
                    (EvSend chat (statusChangeMessage AKTOBE_TITLE link))
  = false.
Proof. reflexivity. Qed.

Lemma realMadrid_is_realMadrid :
  isStatusChangeFor REAL_MADRID_TITLE
                    (EvSend chat (statusChangeMessage REAL_MADRID_TITLE link))
  = true.
Proof. reflexivity. Qed.

Lemma realMadrid_is_not_aktobe :
  isStatusChangeFor AKTOBE_TITLE
                    (EvSend chat (statusChangeMessage REAL_MADRID_TITLE link))
  = false.
Proof. reflexivity. Qed.

Lemma error_is_not_statusChange :
  isStatusChangeFor title (EvSend chat (errorMessage text stamp)) = false.
Proof. reflexivity. Qed.

Lemma statusChange_is_not_error :
  isErrorNotification (EvSend chat (statusChangeMessage title link)) = false.
Proof. reflexivity. Qed.

Lemma error_is_error :
  isErrorNotification (EvSend chat (errorMessage text stamp)) = true.
Proof. reflexivity. Qed.

End Messages.

#[local] Hint Rewrite aktobe_is_aktobe aktobe_is_not_realMadrid
  realMadrid_is_realMadrid realMadrid_is_not_aktobe
  error_is_not_statusChange statusChange_is_not_error error_is_error
  : notes.

Lemma get_is_no_note (title url : string) :
  isStatusChangeFor title (EvGet url) = false
  /\ isErrorNotification (EvGet url) = false.
Proof. split; reflexivity. Qed.

Lemma sleep_is_no_note (title : string) (ms : Z) :
  isStatusChangeFor title (EvSleep ms) = false
  /\ isErrorNotification (EvSleep ms) = false.
Proof. split; reflexivity. Qed.

#[local] Hint Rewrite
  (fun t u => proj1 (get_is_no_note t u)) (fun t u => proj2 (get_is_no_note t u))
  (fun t m => proj1 (sleep_is_no_note t m))
  (fun t m => proj2 (sleep_is_no_note t m)) : notes.

Section Cycle.

Variable env : Env.

(** The cycle once past the guard: the [try] block, then on a throw
    the Error notification, then the release of the guard. *)
Lemma checkAndNotify_entered (s : State) :
  isChecking s = false ->
  checkAndNotify env s
  = match checkBody env (entered s) with
    | (Ok _, s1, t1) => (Ok tt, set_isChecking false s1, t1)
    | (Throw e, s1, t1) =>
      (delivery env (messages s1),
       set_isChecking false (nextMessage (nextClock s1)),
       (t1 ++ [EvSend (CHAT_ID env)
                      (errorMessage (errorText e)
                                    (clock env (clockReads s1)))])%list)
    end.
Proof.
  intros G.
  unfold checkAndNotify, tryFinally, tryCatch, bind, read, assign, ret.
  rewrite G. cbn [fst snd]. fold (entered s).
  destruct (checkBody env (entered s)) as [[[[] | e] s1] t1]; cbn.
  - reflexivity.
  - unfold sendError, sendNotification, tryCatch, sendMessage,
      getFormattedTime, bind, throw, delivery. cbn.
    destruct (botSendMessage env (messages s1)); cbn; reflexivity.
Qed.

(** The [try] block, by the outcome of the fetch. *)
Lemma checkBody_run (s : State) :
  let fetch := parseButtonsWithRetry env s in
  let body := checkBody env s in
  filter isErrorNotification (events_of body) = []
  /\ isChecking (state_of body) = isChecking s
  /\ match result_of fetch with
     | Throw e => body = (Throw e, state_of fetch, events_of fetch)
     | Ok current =>
       match result_of body with
       | Ok _ => previousStatus (state_of body) = Some current
       | Throw _ => previousStatus (state_of body) = previousStatus s
       end
       /\ match previousStatus s with
          | None =>
            body = (Ok tt,
                    set_previousStatus (Some current)
                                       (nextClock (state_of fetch)),
                    events_of fetch)
          | Some previous =>
            let a := becameAvailable (aktobe previous) (aktobe current) in
            let r := becameAvailable (realMadrid previous)
                                     (realMadrid current) in
            notified AKTOBE_TITLE (events_of body) = a
            /\ notified REAL_MADRID_TITLE (events_of body)
               = r && (negb a || delivered env (messages s))
          end
     end.
Proof.
  cbv zeta. unfold checkBody, bind, read, assign, ret, getFormattedTime.
  rewrite parseButtonsWithRetry_run.
  destruct (fetchResult env (requests s)) as [current | e1];
    [| destruct (fetchResult env (S (requests s))) as [current | e2]].
  3: { run_cycle; notes. auto. }
  all: cbn [fst snd].
  all: destruct (previousStatus s) as [previous |] eqn:P.
  all: run_cycle; unfold delivered; notes; rewrite ?P.
  all: try (repeat split; reflexivity).
  all: destruct (becameAvailable (aktobe previous) (aktobe current));
    destruct (becameAvailable (realMadrid previous) (realMadrid current));
    cbn;
    destruct (botSendMessage env (messages s)); cbn;
    try destruct (botSendMessage env (S (messages s))); cbn;
    autorewrite with notes; cbn; rewrite ?P.
  all: repeat split; reflexivity.
Qed.

Lemma notified_needs_send (title : string) (evs : list Event) :
  filter isSend evs = [] -> notified title evs = false.
Proof.
  unfold notified. induction evs as [| ev evs IH]; [reflexivity|].
  destruct ev; cbn [filter isSend existsb]; try discriminate;
    intros H; rewrite (IH H); reflexivity.
Qed.

Lemma notified_app (title : string) (l1 l2 : list Event) :
  notified title (l1 ++ l2) = notified title l1 || notified title l2.
Proof. apply existsb_app. Qed.

(** C1, as the code has it.  In a cycle that obtained [current]: with
    no stored status, no Status-change notification is sent; with
    [previous] stored, the one for Актобе is sent exactly when Актобе
    went from disabled to enabled, and the one for Реал Мадрид exactly
    when Реал Мадрид went from disabled to enabled and the cycle was
    not cut short by the failed delivery of the Актобе notification. *)
Theorem status_change_edge_triggered (s : State) (current : ParseResult) :
  isChecking s = false ->
  result_of (parseButtonsWithRetry env (entered s)) = Ok current ->
  let evs := events_of (checkAndNotify env s) in
  match previousStatus s with
  | None =>
    notified AKTOBE_TITLE evs = false
    /\ notified REAL_MADRID_TITLE evs = false
  | Some previous =>
    let a := becameAvailable (aktobe previous) (aktobe current) in
    notified AKTOBE_TITLE evs = a
    /\ notified REAL_MADRID_TITLE evs
       = becameAvailable (realMadrid previous) (realMadrid current)
         && (negb a || delivered env (messages s))
  end.
Proof.
  intros G F. cbv zeta. rewrite (checkAndNotify_entered s G).
  pose proof (checkBody_run (entered s)) as B. cbv zeta in B.
  destruct B as [_ [_ B]]. rewrite F in B. destruct B as [_ B].
  change (previousStatus (entered s)) with (previousStatus s) in B.
  change (messages (entered s)) with (messages s) in B.
  destruct (previousStatus s) as [previous |].
  - destruct (checkBody env (entered s)) as [[[[] | e] s1] t1];
      unfold events_of in *; cbn [snd] in *; [exact B|].
    rewrite !notified_app. unfold notified at 2 4. cbn [existsb].
    rewrite !error_is_not_statusChange, !orb_false_r. exact B.
  - rewrite B. unfold events_of; cbn [snd].
    destruct (parseButtonsWithRetry_frame env (entered s))
      as [_ [_ [_ [_ N]]]].
    split; apply notified_needs_send; exact N.
Qed.

(** A cycle whose [try] block throws keeps the stored status. *)
Lemma thrown_cycle_keeps_status (s : State) (error : Thrown) :
  isChecking s = false ->
  result_of (checkBody env (entered s)) = Throw error ->
  previousStatus (state_of (checkAndNotify env s)) = previousStatus s.
Proof.
  intros G T. rewrite (checkAndNotify_entered s G).
  pose proof (checkBody_run (entered s)) as B. cbv zeta in B.
  destruct B as [_ [_ B]].
  pose proof (parseButtonsWithRetry_frame env (entered s)) as K.
  cbv zeta in K. destruct K as [K _].
  destruct (checkBody env (entered s)) as [[r s1] t1].
  unfold result_of, state_of in *. cbn [fst snd] in *.
  subst r. cbn [fst snd previousStatus set_isChecking nextMessage nextClock].
  destruct (parseButtonsWithRetry env (entered s)) as [[[current | e] fs] ft];
    cbn [fst snd] in *.
  - destruct B as [B _]. exact B.
  - injection B as _ <- _. exact K.
Qed.

(** A cycle whose fetch fails at both attempts throws in its [try]
    block. *)
Lemma failed_fetch_throws (s : State) (e1 e2 : Thrown) :
  fetchResult env (requests s) = Throw e1 ->
  fetchResult env (S (requests s)) = Throw e2 ->
  result_of (checkBody env (entered s)) = Throw e2.
Proof.
  intros F1 F2.
  pose proof (checkBody_run (entered s)) as B. cbv zeta in B.
  destruct B as [_ [_ B]].
  rewrite parseButtonsWithRetry_run in B.
  change (requests (entered s)) with (requests s) in B.
  rewrite F1, F2 in B. unfold result_of in B; cbn [fst snd] in B.
  rewrite B. reflexivity.
Qed.

(** C3, as the code has it.  When the [try] block of a cycle throws
    [error], at the fetch or at a later step, the cycle sends exactly
    one Error notification, to [CHAT_ID], with the text of [error],
    keeps the stored status and clears the guard.  It returns normally
    when that notification is delivered; when its delivery fails, the
    delivery error is thrown to the caller. *)
Theorem cycle_error_reported (s : State) (error : Thrown) :
  isChecking s = false ->
  result_of (checkBody env (entered s)) = Throw error ->
  let body := checkBody env (entered s) in
  let run := checkAndNotify env s in
  let note := EvSend (CHAT_ID env)
                     (errorMessage (errorText error)
                                   (clock env (clockReads (state_of body)))) in
  events_of run = (events_of body ++ [note])%list
  /\ filter isErrorNotification (events_of run) = [note]
  /\ result_of run = delivery env (messages (state_of body))
  /\ previousStatus (state_of run) = previousStatus s
  /\ isChecking (state_of run) = false.
Proof.
  intros G T. cbv zeta. rewrite (checkAndNotify_entered s G).
  pose proof (checkBody_run (entered s)) as B. cbv zeta in B.
  destruct B as [N [_ B]].
  destruct (checkBody env (entered s)) as [[r s1] t1] eqn:E.
  unfold result_of, state_of, events_of in *. cbn [fst snd] in *.
  subst r. cbn [fst snd].
  split; [reflexivity|]. split.
  { rewrite filter_app, N. cbn [filter app].
    rewrite error_is_error. reflexivity. }
  split; [reflexivity|]. split; [|reflexivity].
  pose proof (thrown_cycle_keeps_status s error G) as K.
  rewrite (checkAndNotify_entered s G), E in K.
  apply K. reflexivity.
Qed.

(** C8.  A cycle that obtained [current], with no status stored, sends
    no message, returns normally and stores [current]; and whenever the
    [try] block of a cycle that obtained [current] completes without a
    throw, [current] is the stored status when the cycle returns. *)
Theorem baseline_and_store (s : State) (current : ParseResult) :
  isChecking s = false ->
  result_of (parseButtonsWithRetry env (entered s)) = Ok current ->
  let run := checkAndNotify env s in
  (previousStatus s = None ->
   result_of run = Ok tt
   /\ filter isSend (events_of run) = []
   /\ previousStatus (state_of run) = Some current)
  /\ (result_of (checkBody env (entered s)) = Ok tt ->
      result_of run = Ok tt
      /\ previousStatus (state_of run) = Some current).
Proof.
  intros G F. cbv zeta. rewrite (checkAndNotify_entered s G).
  pose proof (checkBody_run (entered s)) as B. cbv zeta in B.
  destruct B as [_ [_ B]]. rewrite F in B. destruct B as [S B].
  change (previousStatus (entered s)) with (previousStatus s) in B.
  split.
  - intros P. rewrite P in B. rewrite B.
    unfold result_of, state_of, events_of; cbn [fst snd].
    repeat split.
    apply (parseButtonsWithRetry_frame env (entered s)).
  - intros R.
    destruct (checkBody env (entered s)) as [[r s1] t1].
    unfold result_of, state_of in *; cbn [fst snd] in *. subst r.
    split; [reflexivity | exact S].
Qed.

End Cycle.

Section MissingEntity.

Variable env : Env.

(** C6, as the code has it.  On a page with blocks where the lookup of
    one of the two names returns [null], the extraction yields no
    result: it throws the not-found error of the first entity whose
    lookup returned [null], Актобе being tested before Реал Мадрид,
    unless a lookup throws on a link that the URL constructor rejects,
    and then that error is the one thrown.  [parseButtons] throws on
    such a page, and a cycle that is served it at both attempts keeps
    the stored status. *)
Theorem missing_entity_fails (page : Page) :
  page <> [] ->
  findMatchByOpponent env page AKTOBE = Ok None \/ findMatchByOpponent env page REAL_MADRID = Ok None ->
  extract (findMatchByOpponent env) page
  = match findMatchByOpponent env page AKTOBE, findMatchByOpponent env page REAL_MADRID with
    | Throw e, _ => Throw e
    | Ok _, Throw e => Throw e
    | Ok None, Ok _ => Throw (notFoundError AKTOBE)
    | Ok (Some _), Ok _ => Throw (notFoundError REAL_MADRID)
    end
  /\ (forall s,
         axiosGet env (requests s) = Ok page ->
         result_of (parseButtons env s)
         = extract (findMatchByOpponent env) page)
  /\ (forall s,
         isChecking s = false ->
         axiosGet env (requests s) = Ok page ->
         axiosGet env (S (requests s)) = Ok page ->
         previousStatus (state_of (checkAndNotify env s))
         = previousStatus s).
Proof.
  intros N H.
  assert (X : extract (findMatchByOpponent env) page
              = match findMatchByOpponent env page AKTOBE, findMatchByOpponent env page REAL_MADRID with
                | Throw e, _ => Throw e
                | Ok _, Throw e => Throw e
                | Ok None, Ok _ => Throw (notFoundError AKTOBE)
                | Ok (Some _), Ok _ => Throw (notFoundError REAL_MADRID)
                end).
  { rewrite (extract_cases env page N).
    destruct H as [H | H]; rewrite H.
    - destruct (findMatchByOpponent env page REAL_MADRID) as [[r |] | e]; reflexivity.
    - destruct (findMatchByOpponent env page AKTOBE) as [[a |] | e]; reflexivity. }
  assert (T : exists e, extract (findMatchByOpponent env) page = Throw e).
  { rewrite X.
    destruct (findMatchByOpponent env page AKTOBE) as [[a |] | ea];
      destruct (findMatchByOpponent env page REAL_MADRID) as [[r |] | er]; eauto. }
  assert (F : forall n, axiosGet env n = Ok page ->
                        exists e, fetchResult env n = Throw e).
  { intros n G. unfold fetchResult. rewrite G.
    destruct T as [e T]. rewrite T. eauto. }
  split; [exact X|]. split.
  - intros s G. apply parseButtons_served. exact G.
  - intros s C G1 G2.
    destruct (F _ G1) as [e1 F1]. destruct (F _ G2) as [e2 F2].
    apply (thrown_cycle_keeps_status env s e2 C).
    apply (failed_fetch_throws env s e1 e2 F1 F2).
Qed.

End MissingEntity.

Lemma missing_entity_fails_witness :
  Sample.pageAktobeOnly <> []
  /\ (findMatchByOpponent (Sample.serving Sample.pageAktobeOnly)
                          Sample.pageAktobeOnly AKTOBE = Ok None
      \/ findMatchByOpponent (Sample.serving Sample.pageAktobeOnly)
                             Sample.pageAktobeOnly REAL_MADRID = Ok None)
  /\ extract (findMatchByOpponent (Sample.serving Sample.pageAktobeOnly))
             Sample.pageAktobeOnly
     = Throw (notFoundError REAL_MADRID)
  /\ previousStatus
       (state_of (checkAndNotify (Sample.serving Sample.pageAktobeOnly)
                                 (Sample.idle Sample.closed)))
     = Some Sample.closed.
Proof.
  assert (N : Sample.pageAktobeOnly <> []) by discriminate.
  assert (H : findMatchByOpponent (Sample.serving Sample.pageAktobeOnly)
                                  Sample.pageAktobeOnly AKTOBE = Ok None
              \/ findMatchByOpponent (Sample.serving Sample.pageAktobeOnly)
                                     Sample.pageAktobeOnly REAL_MADRID
                 = Ok None)
    by (right; vm_compute; reflexivity).
  split; [exact N|]. split; [exact H|].
  destruct (missing_entity_fails (Sample.serving Sample.pageAktobeOnly)
                                 Sample.pageAktobeOnly N H)
    as [X [_ K]].
  split; [exact X|].
  exact (K (Sample.idle Sample.closed) eq_refl eq_refl eq_refl).
Defined.

(** C6 as stated fails: on a page that does not list Актобе and whose
    Реал Мадрид link is rejected by the URL constructor, the lookup of
    Актобе returns [null] and the extraction throws the URL error, which
    names no entity. *)
Lemma bad_link_masks_missing_entity :
  ~ Stated.missingEntityNamed (Sample.serving Sample.pageBadLink)
                              Sample.pageBadLink.
Proof.
  intros C.
  destruct C as [name [_ E]];
    [discriminate | left; vm_compute; reflexivity |].
  vm_compute in E. discriminate E.
Qed.

(** C1 as stated fails: both matches go from disabled to enabled while
    no message gets through; the failed delivery of the Актобе
    notification ends the [try] block, and no Status-change notification
    for Реал Мадрид is sent in that cycle. *)
Lemma outage_hides_second_change :
  ~ Stated.edgeTriggered (Sample.outage Sample.pageOpen)
                         (Sample.idle Sample.closed).
Proof.
  intros C.
  specialize (C Sample.onSale eq_refl eq_refl).
  vm_compute in C. destruct C as [_ C]. discriminate C.
Qed.

Lemma status_change_edge_triggered_witness :
  isChecking (Sample.idle Sample.closed) = false
  /\ result_of (parseButtonsWithRetry (Sample.serving Sample.pageAktobeOpen)
                                      (entered (Sample.idle Sample.closed)))
     = Ok (mkParseResult (mkButtonStatus true "https://x/a")
                         (mkButtonStatus false ""))
  /\ notified AKTOBE_TITLE
              (events_of (checkAndNotify (Sample.serving Sample.pageAktobeOpen)
                                         (Sample.idle Sample.closed)))
     = true
  /\ notified REAL_MADRID_TITLE
              (events_of (checkAndNotify (Sample.serving Sample.pageAktobeOpen)
                                         (Sample.idle Sample.closed)))
     = false.
Proof.
  split; [reflexivity|]. split; [vm_compute; reflexivity|].
  exact (status_change_edge_triggered
           (Sample.serving Sample.pageAktobeOpen) (Sample.idle Sample.closed)
           (mkParseResult (mkButtonStatus true "https://x/a")
                          (mkButtonStatus false ""))
           eq_refl eq_refl).
Defined.

(** C3 as stated fails: while no message gets through, the Status-change
    notification fails, the Error notification that reports it fails in
    the same way, and that error leaves [checkAndNotify]. *)
Lemma failed_error_report_propagates :
  ~ Stated.errorsAbsorbed (Sample.outage Sample.pageOpen)
                          (Sample.idle Sample.closed).
Proof.
  intros C.
  destruct (C Sample.telegramDown eq_refl eq_refl) as [_ [R _]].
  vm_compute in R. discriminate R.
Qed.

Lemma cycle_error_reported_witness :
  isChecking (Sample.idle Sample.closed) = false
  /\ result_of (checkBody Sample.offline (entered (Sample.idle Sample.closed)))
     = Throw (JsError "HTTP error: timeout of 10000ms exceeded")
  /\ filter isErrorNotification
            (events_of (checkAndNotify Sample.offline
                                       (Sample.idle Sample.closed)))
     = [EvSend "123456"
               (errorMessage "HTTP error: timeout of 10000ms exceeded"
                             (Sample.time 0))]
  /\ result_of (checkAndNotify Sample.offline (Sample.idle Sample.closed))
     = Ok tt
  /\ previousStatus
       (state_of (checkAndNotify Sample.offline (Sample.idle Sample.closed)))
     = Some Sample.closed.
Proof.
  split; [reflexivity|]. split; [vm_compute; reflexivity|].
  destruct (cycle_error_reported
              Sample.offline (Sample.idle Sample.closed)
              (JsError "HTTP error: timeout of 10000ms exceeded")
              eq_refl eq_refl)
    as [_ [N [R [P _]]]].
  split; [exact N|]. split; [exact R | exact P].
Defined.

Lemma baseline_and_store_witness :
  isChecking Sample.fresh = false
  /\ result_of (parseButtonsWithRetry (Sample.serving Sample.pageOpen)
                                      (entered Sample.fresh))
     = Ok Sample.onSale
  /\ previousStatus Sample.fresh = None
  /\ result_of (checkAndNotify (Sample.serving Sample.pageOpen) Sample.fresh)
     = Ok tt
  /\ filter isSend
            (events_of (checkAndNotify (Sample.serving Sample.pageOpen)
                                       Sample.fresh))
     = []
  /\ previousStatus
       (state_of (checkAndNotify (Sample.serving Sample.pageOpen)
                                 Sample.fresh))
     = Some Sample.onSale.
Proof.
  split; [reflexivity|]. split; [vm_compute; reflexivity|].
  split; [reflexivity|].
  destruct (baseline_and_store (Sample.serving Sample.pageOpen) Sample.fresh
                               Sample.onSale eq_refl eq_refl)
    as [B _].
  exact (B eq_refl).
Defined.

(* ================================================================== *)
(** ** Scenarios *)
(* ================================================================== *)

(** Stored: both disabled.  Fetched: Актобе enabled with link
    [https://x/a].  One GET, then one Status-change notification, for
    Актобе, with that link. *)
Example scenario_aktobe_opens :
  events_of (checkAndNotify (Sample.serving Sample.pageAktobeOpen)
                            (Sample.idle Sample.closed))
  = [EvGet BASE_URL;
     EvSend "123456" (statusChangeMessage AKTOBE_TITLE "https://x/a")].
Proof. vm_compute. reflexivity. Qed.

(** The same page at two cycles in a row: the second cycle sends
    nothing. *)
Example scenario_same_page_twice :
  let env := Sample.serving Sample.pageOpen in
  let s1 := state_of (checkAndNotify env (Sample.idle Sample.closed)) in
  filter isSend (events_of (checkAndNotify env s1)) = [].
Proof. vm_compute. reflexivity. Qed.

(** A first request that times out is followed, 2000 ms later, by a
    second one, whose page is the one compared with the stored status. *)
Example scenario_retry_recovers :
  events_of (checkAndNotify (Sample.flaky Sample.pageAktobeOpen)
                            (Sample.idle Sample.closed))
  = [EvGet BASE_URL; EvSleep 2000; EvGet BASE_URL;
     EvSend "123456" (statusChangeMessage AKTOBE_TITLE "https://x/a")].
Proof. vm_compute. reflexivity. Qed.

(** After the cycle of the outage, the stored status is unchanged, so the
    next cycle, once messages get through, sends both notifications. *)
Example scenario_after_outage :
  let s1 := state_of (checkAndNotify (Sample.outage Sample.pageOpen)
                                     (Sample.idle Sample.closed)) in
  let evs := events_of (checkAndNotify (Sample.serving Sample.pageOpen)
                                       (set_previousStatus
                                          (previousStatus s1) Sample.fresh)) in
  notified AKTOBE_TITLE evs = true /\ notified REAL_MADRID_TITLE evs = true.
Proof. vm_compute. split; reflexivity. Qed.

(* ================================================================== *)
(** ** Further properties of the extraction *)
(* ================================================================== *)

Section Scan.

Variable env : Env.

(** X1. The scan of a list of blocks followed by more blocks is the scan
    of the first list when that one finds the opponent or throws; the
    blocks that follow are looked at only when the first list gives
    [null]. *)
Theorem scan_first_match_wins (p1 p2 : list MatchBlock) (name : string) :
  findMatchByOpponent env (p1 ++ p2) name
  = match findMatchByOpponent env p1 name with
    | Ok None => findMatchByOpponent env p2 name
    | found => found
    end.
Proof.
  induction p1 as [| b rest IH]; [reflexivity|].
  rewrite <- app_comm_cons.
  destruct (foundOpponent b name) eqn:F.
  - destruct (isEmpty (ticketButtons b)) eqn:B.
    + destruct (ticketButtons b) eqn:T; [|discriminate B].
      rewrite !findMatchByOpponent_skip_button; auto.
    + rewrite !findMatchByOpponent_stop; auto.
      destruct (buttonStatus env (ticketButtons b)); reflexivity.
  - rewrite !findMatchByOpponent_skip_name; auto.
Qed.

(** X2. Blocks that do not name the opponent have no influence on its
    lookup: leaving them out of the page gives the same result. *)
Theorem scan_ignores_other_blocks (page : list MatchBlock) (name : string) :
  findMatchByOpponent env (filter (fun b => foundOpponent b name) page) name
  = findMatchByOpponent env page name.
Proof.
  induction page as [| b rest IH]; [reflexivity|].
  cbn [filter]. destruct (foundOpponent b name) eqn:F.
  - destruct (isEmpty (ticketButtons b)) eqn:B.
    + destruct (ticketButtons b) eqn:T; [|discriminate B].
      rewrite !findMatchByOpponent_skip_button; auto.
    + rewrite !findMatchByOpponent_stop; auto.
  - rewrite findMatchByOpponent_skip_name; auto.
Qed.

(** X3. The extraction returns a result exactly when the page has a block
    and both lookups find their match; the result then holds the two
    statuses found, so no result is ever partial. *)
Theorem extract_complete (page : Page) (r : ParseResult) :
  extract (findMatchByOpponent env) page = Ok r
  <-> page <> []
      /\ findMatchByOpponent env page AKTOBE = Ok (Some (aktobe r))
      /\ findMatchByOpponent env page REAL_MADRID = Ok (Some (realMadrid r)).
Proof.
  split.
  - intros X.
    assert (N : page <> []) by (intros ->; discriminate X).
    split; [exact N|].
    rewrite (extract_cases env page N) in X.
    destruct (findMatchByOpponent env page AKTOBE) as [[a |] | ea];
      destruct (findMatchByOpponent env page REAL_MADRID) as [[m |] | em];
      try discriminate X.
    injection X as <-. split; reflexivity.
  - intros [N [A R]]. rewrite (extract_cases env page N), A, R.
    destruct r; reflexivity.
Qed.

(** The text of the [Error] that replaces an axios error. *)
Lemma rethrow_AxiosError (m : string) (response : option Z) :
  rethrow (AxiosError m response)
  = JsError ("HTTP error: " ++ m ++
             match response with
             | Some status => " (Status: " ++ toString status ++ ")"
             | None => ""
             end).
Proof. reflexivity. Qed.

Lemma fetchResult_not_axios (n : nat) (e : Thrown) :
  fetchResult env n = Throw e -> forall m response, e <> AxiosError m response.
Proof.
  unfold fetchResult. intros H m response ->.
  destruct (axiosGet env n) as [page | e'].
  - destruct (extract (findMatchByOpponent env) page) as [r | e''] eqn:X;
      [discriminate H|].
    assert (K : exists text, e'' = JsError text).
    { unfold extract in X.
      destruct (length page =? 0)%nat; [injection X as <-; eauto|].
      destruct (findMatchByOpponent env page AKTOBE) as [a | ea] eqn:EA.
      - destruct (findMatchByOpponent env page REAL_MADRID)
          as [r | er] eqn:ER.
        + destruct a; [destruct r; [discriminate|] |];
            injection X as <-; unfold notFoundError; eauto.
        + injection X as <-.
          rewrite (findMatchByOpponent_throws _ _ _ _ ER). eauto.
      - injection X as <-.
        rewrite (findMatchByOpponent_throws _ _ _ _ EA). eauto. }
    destruct K as [text ->]. discriminate H.
  - destruct e'; discriminate H.
Qed.

(** X4. What the fetch with its retry throws is never an axios error.
    When the second request fails with the axios error of message [m],
    the thrown value is an [Error] whose message is "HTTP error: "
    followed by [m] and, when a response came, by its status code; the
    error of the first attempt is dropped. *)
Theorem fetch_errors_are_wrapped (s : State) (e : Thrown) :
  result_of (parseButtonsWithRetry env s) = Throw e ->
  (forall m response, e <> AxiosError m response)
  /\ (forall m response,
         axiosGet env (S (requests s)) = Throw (AxiosError m response) ->
         e = JsError ("HTTP error: " ++ m ++
                      match response with
                      | Some status => " (Status: " ++ toString status ++ ")"
                      | None => ""
                      end)).
Proof.
  rewrite parseButtonsWithRetry_run.
  destruct (fetchResult env (requests s)) as [r | e1] eqn:F1;
    unfold result_of; cbn [fst]; [discriminate|].
  intros F2. split.
  - exact (fetchResult_not_axios _ _ F2).
  - intros m response G. unfold fetchResult in F2. rewrite G in F2.
    rewrite rethrow_AxiosError in F2. injection F2 as <-. reflexivity.
Qed.

End Scan.

(* ================================================================== *)
(** ** Further properties of the handlers *)
(* ================================================================== *)

Section Handlers.

Variable env : Env.

Lemma checkAndNotify_step (s : State) :
  let run := checkAndNotify env s in
  Forall (targets BASE_URL (CHAT_ID env)) (events_of run)
  /\ (length (filter isGet (events_of run)) <= 2)%nat
  /\ (length (filter isSleep (events_of run)) <= 1)%nat
  /\ (length (filter isSend (events_of run)) <= 3)%nat
  /\ (requests s <= requests (state_of run))%nat
  /\ (previousStatus (state_of run) = previousStatus s
      \/ exists n current,
          (requests s <= n < requests (state_of run))%nat
          /\ fetchResult env n = Ok current
          /\ previousStatus (state_of run) = Some current)
  /\ (isChecking s = false -> isChecking (state_of run) = false).
Proof.
  cbv zeta. destruct (isChecking s) eqn:G.
  - run_handlers. rewrite G. cbn. repeat split; auto; try lia.
  - run_handlers. rewrite G. cbn [fst snd].
    rewrite parseButtonsWithRetry_run. cycle_cases env s.
    all: repeat split; try lia; try (repeat constructor; fail).
    all: first
           [ left; reflexivity
           | right; exists (requests s); eexists; repeat split;
             [lia | lia | eassumption]
           | right; exists (S (requests s)); eexists; repeat split;
             [lia | lia | eassumption] ].
Qed.

(** The timer callback of the check leaves the state and the events of
    [checkAndNotify] and swallows what it throws. *)
Lemma onCheckTick_run (s : State) :
  onCheckTick env s
  = (Ok tt, state_of (checkAndNotify env s), events_of (checkAndNotify env s)).
Proof.
  unfold onCheckTick, tryCatch, ret, state_of, events_of.
  destruct (checkAndNotify env s) as [[[[] | e] s1] t1]; cbn;
    rewrite ?app_nil_r; reflexivity.
Qed.

(** One callback: where its effects go, how many there are, and what
    it may do to the module variables. *)
Lemma handle_step (t : Trigger) (s : State) :
  let run := handle env t s in
  Forall (targets BASE_URL (CHAT_ID env)) (events_of run)
  /\ (length (filter isGet (events_of run)) <= 2)%nat
  /\ (length (filter isSleep (events_of run)) <= 1)%nat
  /\ (length (filter isSend (events_of run)) <= 3)%nat
  /\ (requests s <= requests (state_of run))%nat
  /\ (previousStatus (state_of run) = previousStatus s
      \/ exists n current,
          (requests s <= n < requests (state_of run))%nat
          /\ fetchResult env n = Ok current
          /\ previousStatus (state_of run) = Some current)
  /\ (isChecking s = false -> isChecking (state_of run) = false).
Proof.
  destruct t as [| | id | id]; cbv zeta.
  - unfold handle. rewrite onCheckTick_run.
    unfold state_of at 1 3 5 7, events_of at 1 2 3 4. cbn [fst snd].
    apply checkAndNotify_step.
  - run_handlers. cbn.
    destruct (botSendMessage env (messages s)); cbn;
      repeat split; auto; try lia; repeat constructor.
  - unfold handle, onStatus.
    destruct (toString id =? CHAT_ID env) eqn:E; cbn [negb].
    + apply String.eqb_eq in E. rewrite E.
      run_handlers. rewrite parseButtonsWithRetry_run.
      destruct (fetchResult env (requests s)) as [r | e1];
        [| destruct (fetchResult env (S (requests s))) as [r | e2]]; cbn;
        destruct (botSendMessage env (messages s)); cbn;
        try (destruct (botSendMessage env (S (messages s))); cbn);
        repeat split; auto; try lia; repeat constructor.
    + run_handlers. cbn. repeat split; auto; try lia.
  - unfold handle, onHelp.
    destruct (toString id =? CHAT_ID env) eqn:E; cbn [negb].
    + apply String.eqb_eq in E. rewrite E.
      run_handlers. cbn.
      destruct (botSendMessage env (messages s)); cbn;
        repeat split; auto; try lia; repeat constructor.
    + run_handlers. cbn. repeat split; auto; try lia.
Qed.

(** X5. Whatever the trigger and the state, a callback sends its
    requests to [BASE_URL] only and its messages to [CHAT_ID] only, and
    makes at most two requests, one pause and three messages. *)
Theorem effects_are_targeted_and_bounded (t : Trigger) (s : State) :
  let evs := events_of (handle env t s) in
  Forall (targets BASE_URL (CHAT_ID env)) evs
  /\ (length (filter isGet evs) <= 2)%nat
  /\ (length (filter isSleep evs) <= 1)%nat
  /\ (length (filter isSend evs) <= 3)%nat.
Proof.
  destruct (handle_step t s) as [T [G [P [M _]]]]. cbv zeta. auto.
Qed.

(** X6. Only the check cycle writes the module variables: the
    operational timer and the two commands leave [previousStatus] and
    [isChecking] as they found them, whatever their outcome. *)
Theorem only_the_cycle_writes (t : Trigger) (s : State) :
  t <> CheckTick ->
  variables (state_of (handle env t s)) = variables s.
Proof.
  intros N. destruct t as [| | id | id]; [contradiction | | |].
  - run_handlers. cbn.
    destruct (botSendMessage env (messages s)); reflexivity.
  - unfold handle, onStatus.
    destruct (toString id =? CHAT_ID env); cbn [negb]; [| reflexivity].
    run_handlers. rewrite parseButtonsWithRetry_run.
    destruct (fetchResult env (requests s)) as [r | e1];
      [| destruct (fetchResult env (S (requests s))) as [r | e2]]; cbn;
      destruct (botSendMessage env (messages s)); cbn;
      try (destruct (botSendMessage env (S (messages s))); cbn);
      reflexivity.
  - unfold handle, onHelp.
    destruct (toString id =? CHAT_ID env); cbn [negb]; [| reflexivity].
    run_handlers. cbn.
    destruct (botSendMessage env (messages s)); reflexivity.
Qed.

(** X7. The two timer callbacks and the [/help] handler never reject,
    even when Telegram refuses the message; of all callbacks only the
    [/status] handler can. *)
Theorem only_status_can_reject (t : Trigger) (s : State) :
  (forall id, t <> StatusCommand id) ->
  result_of (handle env t s) = Ok tt.
Proof.
  intros N. destruct t as [| | id | id].
  - unfold handle. rewrite onCheckTick_run. reflexivity.
  - run_handlers. cbn.
    destruct (botSendMessage env (messages s)); reflexivity.
  - destruct (N id eq_refl).
  - unfold handle, onHelp.
    destruct (toString id =? CHAT_ID env); cbn [negb]; [| reflexivity].
    run_handlers. cbn.
    destruct (botSendMessage env (messages s)); reflexivity.
Qed.

End Handlers.

Section Replies.

Variable env : Env.

(** X8. The [/status] handler called from [CHAT_ID] does not look at the
    guard: it fetches, with the retry, and answers with the manual
    status of what it fetched.  When that answer is refused by Telegram,
    or when the fetch failed, it sends an Error notification with the
    text of the error, and the handler rejects only if that one is
    refused too. *)
Theorem manual_status_reply (id : Z) (s : State) :
  toString id = CHAT_ID env ->
  let run := onStatus env id s in
  let chat := CHAT_ID env in
  let now := clock env (clockReads s) in
  match result_of (parseButtonsWithRetry env s) with
  | Ok r =>
    match botSendMessage env (messages s) with
    | None =>
      result_of run = Ok tt
      /\ filter isSend (events_of run)
         = [EvSend chat (manualStatusMessage r now)]
    | Some refused =>
      result_of run = delivery env (S (messages s))
      /\ filter isSend (events_of run)
         = [EvSend chat (manualStatusMessage r now);
            EvSend chat (errorMessage (errorText refused)
                                      (clock env (S (clockReads s))))]
    end
  | Throw e =>
    result_of run = delivery env (messages s)
    /\ filter isSend (events_of run)
       = [EvSend chat (errorMessage (errorText e) now)]
  end.
Proof.
  intros E. cbv zeta. unfold onStatus. rewrite E, String.eqb_refl.
  cbn [negb]. unfold delivery.
  run_handlers. rewrite parseButtonsWithRetry_run.
  destruct (fetchResult env (requests s)) as [r | e1];
    [| destruct (fetchResult env (S (requests s))) as [r | e2]]; cbn;
    destruct (botSendMessage env (messages s)); cbn;
    try (destruct (botSendMessage env (S (messages s))); cbn);
    split; reflexivity.
Qed.

(** X9. When Telegram accepts the messages, a cycle that compares
    [current] with the stored [previous] sends exactly the Status-change
    notifications that are due, the one for Актобе before the one for
    Реал Мадрид, each to [CHAT_ID] with the link of [current]; it
    returns normally and stores [current]. *)
Theorem cycle_sends_due_notifications (s : State)
        (previous current : ParseResult) :
  isChecking s = false ->
  previousStatus s = Some previous ->
  result_of (parseButtonsWithRetry env (entered s)) = Ok current ->
  botSendMessage env (messages s) = None ->
  botSendMessage env (S (messages s)) = None ->
  let run := checkAndNotify env s in
  result_of run = Ok tt
  /\ filter isSend (events_of run)
     = dueNotifications (CHAT_ID env) previous current
  /\ previousStatus (state_of run) = Some current.
Proof.
  intros G P F D1 D2. cbv zeta. unfold dueNotifications.
  run_handlers. rewrite G. cbn [fst snd].
  rewrite parseButtonsWithRetry_run in *.
  cbn [requests set_isChecking] in *.
  destruct (fetchResult env (requests s)) as [r | e1];
    [| destruct (fetchResult env (S (requests s))) as [r | e2]];
    cbn in F; try discriminate F; injection F as ->; cbn; rewrite P;
    destruct (becameAvailable (aktobe previous) (aktobe current));
    destruct (becameAvailable (realMadrid previous) (realMadrid current));
    cbn; rewrite ?D1; cbn; rewrite ?D2; cbn; repeat split.
Qed.

(** X10. A cycle in which no match went from disabled to enabled sends
    nothing, returns normally and stores what it fetched.  This covers
    the same status fetched twice, and a match going from enabled to
    disabled: that change is stored, so the next opening is notified. *)
Theorem unchanged_status_is_silent (s : State)
        (previous current : ParseResult) :
  isChecking s = false ->
  previousStatus s = Some previous ->
  result_of (parseButtonsWithRetry env (entered s)) = Ok current ->
  (isEnabled (aktobe current) = true -> isEnabled (aktobe previous) = true) ->
  (isEnabled (realMadrid current) = true ->
   isEnabled (realMadrid previous) = true) ->
  let run := checkAndNotify env s in
  result_of run = Ok tt
  /\ filter isSend (events_of run) = []
  /\ previousStatus (state_of run) = Some current.
Proof.
  intros G P F A R. cbv zeta.
  assert (QA : becameAvailable (aktobe previous) (aktobe current) = false).
  { unfold becameAvailable.
    destruct (isEnabled (aktobe current)); [|apply andb_false_r].
    rewrite (A eq_refl). reflexivity. }
  assert (QR : becameAvailable (realMadrid previous) (realMadrid current)
               = false).
  { unfold becameAvailable.
    destruct (isEnabled (realMadrid current)); [|apply andb_false_r].
    rewrite (R eq_refl). reflexivity. }
  run_handlers. rewrite G. cbn [fst snd].
  rewrite parseButtonsWithRetry_run in *.
  cbn [requests set_isChecking] in *.
  destruct (fetchResult env (requests s)) as [r | e1];
    [| destruct (fetchResult env (S (requests s))) as [r | e2]];
    cbn in F; try discriminate F; injection F as ->; cbn;
    rewrite P, QA, QR; cbn; repeat split.
Qed.

(** The Status-change notifications of a cycle that obtained [current]. *)
Lemma cycle_notifies (s : State) (previous current : ParseResult) :
  isChecking s = false ->
  previousStatus s = Some previous ->
  result_of (parseButtonsWithRetry env (entered s)) = Ok current ->
  let evs := events_of (checkAndNotify env s) in
  let a := becameAvailable (aktobe previous) (aktobe current) in
  notified AKTOBE_TITLE evs = a
  /\ notified REAL_MADRID_TITLE evs
     = becameAvailable (realMadrid previous) (realMadrid current)
       && (negb a || delivered env (messages s)).
Proof.
  intros G P F. cbv zeta. rewrite (checkAndNotify_entered env s G).
  pose proof (checkBody_run env (entered s)) as B. cbv zeta in B.
  destruct B as [_ [_ B]]. rewrite F in B. destruct B as [_ B].
  change (previousStatus (entered s)) with (previousStatus s) in B.
  change (messages (entered s)) with (messages s) in B.
  rewrite P in B.
  destruct (checkBody env (entered s)) as [[[[] | e] s1] t1];
    unfold events_of in *; cbn [snd] in *; [exact B|].
  rewrite !notified_app. unfold notified at 2 4. cbn [existsb].
  rewrite !error_is_not_statusChange, !orb_false_r. exact B.
Qed.

(** X11. A change is not lost by a failed cycle.  When the [try] block
    of a cycle throws, at the fetch or at a delivery, the next cycle
    still compares what it fetches with the status stored before the
    failure: an opening that the failed cycle did not report, or
    reported without success, is notified again, for Актобе in every
    case and for Реал Мадрид unless the Актобе notification of that
    next cycle is refused. *)
Theorem failed_cycle_is_retried (s : State) (error : Thrown)
        (previous current : ParseResult) :
  isChecking s = false ->
  previousStatus s = Some previous ->
  result_of (checkBody env (entered s)) = Throw error ->
  let s1 := state_of (checkAndNotify env s) in
  result_of (parseButtonsWithRetry env (entered s1)) = Ok current ->
  let evs := events_of (checkAndNotify env s1) in
  let a := becameAvailable (aktobe previous) (aktobe current) in
  notified AKTOBE_TITLE evs = a
  /\ notified REAL_MADRID_TITLE evs
     = becameAvailable (realMadrid previous) (realMadrid current)
       && (negb a || delivered env (messages s1)).
Proof.
  intros G P T s1 F.
  assert (G1 : isChecking s1 = false).
  { destruct (checkAndNotify_step env s) as [_ [_ [_ [_ [_ [_ K]]]]]].
    exact (K G). }
  assert (P1 : previousStatus s1 = Some previous).
  { unfold s1. rewrite (thrown_cycle_keeps_status env s error G T). exact P. }
  exact (cycle_notifies s1 previous current G1 P1 F).
Qed.

End Replies.

Section Lifetime.

Variable env : Env.


(** What [startBot] leaves behind. *)
Lemma startBot_step :
  let s := snd (fst (startBot env initialState)) in
  isChecking s = false
  /\ forall r, previousStatus s = Some r ->
               exists n, (n < requests s)%nat /\ fetchResult env n = Ok r.
Proof.
  cbv zeta. unfold initialState. run_handlers. cbn.
  destruct (botSendMessage env 0); cbn;
    [split; [reflexivity | discriminate]|].
  rewrite parseButtonsWithRetry_run. cbn.
  destruct (fetchResult env 0) as [current | e1] eqn:F0;
    [| destruct (fetchResult env 1) as [current | e2] eqn:F1]; cbn.
  - split; [reflexivity|]. intros r [= <-]. exists 0%nat. split; [lia | exact F0].
  - split; [reflexivity|]. intros r [= <-]. exists 1%nat. split; [lia | exact F1].
  - destruct (botSendMessage env 1); cbn; split;
      reflexivity || discriminate.
Qed.


(** X14. The stored status is always one that a request really
    produced: in every state reached after the start, [previousStatus]
    is either [null] or the result extracted from the answer to one of
    the requests made so far. *)
Theorem stored_status_was_fetched (s : State) (r : ParseResult) :
  reachable env s ->
  previousStatus s = Some r ->
  exists n, (n < requests s)%nat /\ fetchResult env n = Ok r.
Proof.
  intros R. revert r. induction R as [| s t R IH]; intros r P.
  - apply startBot_step. exact P.
  - destruct (handle_step env t s) as [_ [_ [_ [_ [L [[K | K] _]]]]]].
    + rewrite K in P. destruct (IH r P) as [n [B F]].
      exists n. split; [lia | exact F].
    + destruct K as [n [current [[_ B] [F Q]]]].
      rewrite Q in P. injection P as <-. exists n. split; [exact B | exact F].
Qed.

(** X15. Once a status is stored, no callback clears it: it is kept or
    replaced by a newly fetched one, never set back to [null]. *)
Theorem stored_status_is_never_cleared (t : Trigger) (s : State)
        (r : ParseResult) :
  previousStatus s = Some r ->
  exists r', previousStatus (state_of (handle env t s)) = Some r'.
Proof.
  intros P.
  destruct (handle_step env t s) as [_ [_ [_ [_ [_ [[K | K] _]]]]]].
  - exists r. rewrite K. exact P.
  - destruct K as [n [current [_ [_ Q]]]]. exists current. exact Q.
Qed.

(** A cycle whose [try] block completes stores what it fetched and
    clears the guard. *)
Lemma completed_cycle_stores (s : State) (current : ParseResult) :
  isChecking s = false ->
  result_of (parseButtonsWithRetry env (entered s)) = Ok current ->
  result_of (checkBody env (entered s)) = Ok tt ->
  let s1 := state_of (checkAndNotify env s) in
  previousStatus s1 = Some current /\ isChecking s1 = false.
Proof.
  intros G F B. cbv zeta. rewrite (checkAndNotify_entered env s G).
  pose proof (checkBody_run env (entered s)) as K. cbv zeta in K.
  destruct K as [_ [_ K]]. rewrite F in K. destruct K as [K _].
  destruct (checkBody env (entered s)) as [[r s1] t1].
  unfold result_of, state_of in *. cbn [fst snd] in *. subst r.
  split; [exact K | reflexivity].
Qed.

(** X16. Consecutive cycles compare consecutive fetches.  After a cycle
    whose [try] block completed on [first], the next cycle that obtains
    [second] notifies the openings from [first] to [second]: Актобе
    exactly when it went from disabled to enabled between the two, Реал
    Мадрид likewise unless the Актобе notification is refused. *)
Theorem completed_cycle_moves_baseline (s : State)
        (first second : ParseResult) :
  isChecking s = false ->
  result_of (parseButtonsWithRetry env (entered s)) = Ok first ->
  result_of (checkBody env (entered s)) = Ok tt ->
  let s1 := state_of (checkAndNotify env s) in
  result_of (parseButtonsWithRetry env (entered s1)) = Ok second ->
  let evs := events_of (checkAndNotify env s1) in
  let a := becameAvailable (aktobe first) (aktobe second) in
  notified AKTOBE_TITLE evs = a
  /\ notified REAL_MADRID_TITLE evs
     = becameAvailable (realMadrid first) (realMadrid second)
       && (negb a || delivered env (messages s1)).
Proof.
  intros G F B s1 F1.
  destruct (completed_cycle_stores s first G F B) as [P1 G1].
  exact (cycle_notifies env s1 first second G1 P1 F1).
Qed.

End Lifetime.

(* ================================================================== *)
(** ** Instances of the further properties *)
(* ================================================================== *)

Lemma fetch_errors_are_wrapped_witness :
  result_of (parseButtonsWithRetry Sample.gone Sample.fresh)
  = Throw (JsError
             "HTTP error: Request failed with status code 404 (Status: 404)")
  /\ (forall m response,
         JsError "HTTP error: Request failed with status code 404 (Status: 404)"
         <> AxiosError m response).
Proof.
  assert (H : result_of (parseButtonsWithRetry Sample.gone Sample.fresh)
              = Throw (JsError
                  "HTTP error: Request failed with status code 404 (Status: 404)"))
    by (vm_compute; reflexivity).
  split; [exact H|].
  exact (proj1 (fetch_errors_are_wrapped Sample.gone Sample.fresh _ H)).
Defined.

Lemma only_the_cycle_writes_witness :
  StatusCommand 123456 <> CheckTick
  /\ variables (state_of (handle (Sample.serving Sample.pageOpen)
                                 (StatusCommand 123456) Sample.busy))
     = variables Sample.busy.
Proof.
  assert (N : StatusCommand 123456 <> CheckTick) by discriminate.
  split; [exact N|].
  exact (only_the_cycle_writes (Sample.serving Sample.pageOpen)
                               (StatusCommand 123456) Sample.busy N).
Defined.

Lemma only_status_can_reject_witness :
  (forall id, HelpCommand 123456 <> StatusCommand id)
  /\ result_of (handle (Sample.outage Sample.pageOpen) (HelpCommand 123456)
                       Sample.fresh)
     = Ok tt.
Proof.
  assert (N : forall id, HelpCommand 123456 <> StatusCommand id)
    by (intros id; discriminate).
  split; [exact N|].
  exact (only_status_can_reject (Sample.outage Sample.pageOpen)
                                (HelpCommand 123456) Sample.fresh N).
Defined.

Lemma manual_status_reply_witness :
  toString 123456 = CHAT_ID (Sample.outage Sample.pageOpen)
  /\ result_of (onStatus (Sample.outage Sample.pageOpen) 123456 Sample.busy)
     = Throw Sample.telegramDown
  /\ filter isSend
            (events_of (onStatus (Sample.outage Sample.pageOpen) 123456
                                 Sample.busy))
     = [EvSend "123456" (manualStatusMessage Sample.onSale (Sample.time 0));
        EvSend "123456"
               (errorMessage "ETELEGRAM: 502 Bad Gateway" (Sample.time 1))].
Proof.
  assert (H : toString 123456 = CHAT_ID (Sample.outage Sample.pageOpen))
    by (vm_compute; reflexivity).
  split; [exact H|].
  exact (manual_status_reply (Sample.outage Sample.pageOpen) 123456
                             Sample.busy H).
Defined.

Lemma cycle_sends_due_notifications_witness :
  isChecking (Sample.idle Sample.closed) = false
  /\ result_of (checkAndNotify (Sample.serving Sample.pageOpen)
                               (Sample.idle Sample.closed))
     = Ok tt
  /\ filter isSend
            (events_of (checkAndNotify (Sample.serving Sample.pageOpen)
                                       (Sample.idle Sample.closed)))
     = [EvSend "123456"
               (statusChangeMessage AKTOBE_TITLE
                                    "https://fckairat.com/tickets/aktobe");
        EvSend "123456"
               (statusChangeMessage REAL_MADRID_TITLE
                                    "https://fckairat.com/tickets/real")]
  /\ previousStatus
       (state_of (checkAndNotify (Sample.serving Sample.pageOpen)
                                 (Sample.idle Sample.closed)))
     = Some Sample.onSale.
Proof.
  split; [reflexivity|].
  exact (cycle_sends_due_notifications
           (Sample.serving Sample.pageOpen) (Sample.idle Sample.closed)
           Sample.closed Sample.onSale
           eq_refl eq_refl eq_refl eq_refl eq_refl).
Defined.

Lemma unchanged_status_is_silent_witness :
  isChecking (Sample.idle Sample.onSale) = false
  /\ result_of (parseButtonsWithRetry (Sample.serving Sample.pageClosed)
                                      (entered (Sample.idle Sample.onSale)))
     = Ok Sample.closed
  /\ filter isSend
            (events_of (checkAndNotify (Sample.serving Sample.pageClosed)
                                       (Sample.idle Sample.onSale)))
     = []
  /\ previousStatus
       (state_of (checkAndNotify (Sample.serving Sample.pageClosed)
                                 (Sample.idle Sample.onSale)))
     = Some Sample.closed.
Proof.
  split; [reflexivity|]. split; [vm_compute; reflexivity|].
  destruct (unchanged_status_is_silent
              (Sample.serving Sample.pageClosed) (Sample.idle Sample.onSale)
              Sample.onSale Sample.closed eq_refl eq_refl eq_refl)
    as [_ K]; [intros H; discriminate H | intros H; discriminate H |].
  exact K.
Defined.

Lemma failed_cycle_is_retried_witness :
  result_of (checkBody (Sample.hiccup Sample.pageOpen)
                       (entered (Sample.idle Sample.closed)))
  = Throw Sample.telegramDown
  /\ (let s1 := state_of (checkAndNotify (Sample.hiccup Sample.pageOpen)
                                         (Sample.idle Sample.closed)) in
      let evs := events_of (checkAndNotify (Sample.hiccup Sample.pageOpen) s1) in
      notified AKTOBE_TITLE evs = true
      /\ notified REAL_MADRID_TITLE evs = true).
Proof.
  split; [vm_compute; reflexivity|].
  exact (failed_cycle_is_retried
           (Sample.hiccup Sample.pageOpen) (Sample.idle Sample.closed)
           Sample.telegramDown Sample.closed Sample.onSale
           eq_refl eq_refl eq_refl eq_refl).
Defined.


Lemma stored_status_was_fetched_witness :
  let env := Sample.opening in
  let s0 := snd (fst (startBot env initialState)) in
  let s1 := state_of (handle env CheckTick s0) in
  reachable env s1
  /\ previousStatus s1 = Some Sample.onSale
  /\ exists n, (n < requests s1)%nat /\ fetchResult env n = Ok Sample.onSale.
Proof.
  cbv zeta.
  assert (R : reachable Sample.opening
                (state_of (handle Sample.opening CheckTick
                   (snd (fst (startBot Sample.opening initialState))))))
    by (apply reach_step; apply reach_start).
  assert (P : previousStatus
                (state_of (handle Sample.opening CheckTick
                   (snd (fst (startBot Sample.opening initialState)))))
              = Some Sample.onSale)
    by (vm_compute; reflexivity).
  split; [exact R|]. split; [exact P|].
  exact (stored_status_was_fetched Sample.opening _ Sample.onSale R P).
Defined.

Lemma stored_status_is_never_cleared_witness :
  previousStatus (Sample.idle Sample.closed) = Some Sample.closed
  /\ exists r',
      previousStatus (state_of (handle Sample.offline CheckTick
                                       (Sample.idle Sample.closed)))
      = Some r'.
Proof.
  split; [reflexivity|].
  exact (stored_status_is_never_cleared Sample.offline CheckTick
                                        (Sample.idle Sample.closed)
                                        Sample.closed eq_refl).
Defined.

Lemma completed_cycle_moves_baseline_witness :
  isChecking Sample.fresh = false
  /\ result_of (parseButtonsWithRetry Sample.opening (entered Sample.fresh))
     = Ok Sample.closed
  /\ (let s1 := state_of (checkAndNotify Sample.opening Sample.fresh) in
      let evs := events_of (checkAndNotify Sample.opening s1) in
      notified AKTOBE_TITLE evs = true
      /\ notified REAL_MADRID_TITLE evs = true).
Proof.
  split; [reflexivity|]. split; [vm_compute; reflexivity|].
  exact (completed_cycle_moves_baseline
           Sample.opening Sample.fresh Sample.closed Sample.onSale
           eq_refl eq_refl eq_refl eq_refl).
Defined.
